(** * The conversation engine of the [openai] plugin

    A shallow embedding of [src/plugins/openai/__init__.py]: the message
    assembler, the context manager, the completion client, the user
    settings and the capability tags of the model directory, followed by
    the properties the specification states about them.

    The plugin's functions are coroutines that read and write files, send
    HTTP requests, log and answer the chat; they are embedded as
    computations in a state monad over a [world] that records these
    effects. What the plugin cannot decide (the configuration, the
    answers of the remote, whether a file can be written) is an
    [environment]. An exception that no [try] of the plugin catches
    leaves the function that raised it and its callers: such functions
    return an [option] ([None] when they raise) or an [ending]. *)

From Stdlib Require Import ZArith NArith Ascii String.
From stdpp Require Import base option list gmap pretty sorting.

Set Warnings "-register-all".
Local Open Scope N_scope.

(** ** Python strings

    A Python [str] is a sequence of Unicode code points: [len], slicing,
    [startswith] and the other methods count and compare code points.
    A code point is an [N]; a literal of the source is written
    [py "..."], which decodes the UTF-8 bytes of the Rocq literal. *)

Module PyStr.

Abbreviation str := (list N).

Fixpoint utf8_decode (bs : list N) : str :=
  match bs with
  | [] => []
  | b :: t =>
      if b <? 128 then b :: utf8_decode t
      else if b <? 224 then
        match t with
        | c1 :: t1 => ((b - 192) * 64 + (c1 - 128)) :: utf8_decode t1
        | _ => []
        end
      else if b <? 240 then
        match t with
        | c1 :: c2 :: t2 =>
            ((b - 224) * 4096 + (c1 - 128) * 64 + (c2 - 128)) :: utf8_decode t2
        | _ => []
        end
      else
        match t with
        | c1 :: c2 :: c3 :: t3 =>
            ((b - 240) * 262144 + (c1 - 128) * 4096 + (c2 - 128) * 64 + (c3 - 128))
              :: utf8_decode t3
        | _ => []
        end
  end.

Definition py (s : string) : str :=
  utf8_decode (N_of_ascii <$> list_ascii_of_string s).

(** [len(s)], [a + b] and truthiness are [length], [++] and [nonempty]. *)
Definition nonempty (s : str) : bool :=
  match s with [] => false | _ => true end.

Definition str_eqb (a b : str) : bool := bool_decide (a = b).

(** [s.startswith(p)] *)
Fixpoint startswith (p s : str) : bool :=
  match p, s with
  | [], _ => true
  | a :: p', b :: s' => (a =? b) && startswith p' s'
  | _ :: _, [] => false
  end.

(** [s.endswith(p)] *)
Definition endswith (p s : str) : bool :=
  startswith (reverse p) (reverse s).

(** [p in s] *)
Fixpoint contains (p s : str) : bool :=
  startswith p s ||
  match s with
  | [] => false
  | _ :: s' => contains p s'
  end.

(** [s.lower()] on the ASCII letters; the code points outside ASCII are
    left as they are (CPython maps them through the Unicode case tables,
    which are not reproduced here). *)
Definition lower_char (c : N) : N :=
  if (65 <=? c) && (c <=? 90) then c + 32 else c.

Definition lower (s : str) : str := lower_char <$> s.

(** The code points [str.strip()] removes: CPython's
    [_PyUnicode_IsWhitespace]. *)
Definition isspace (c : N) : bool :=
  ((9 <=? c) && (c <=? 13)) || ((28 <=? c) && (c <=? 32))
  || (c =? 133) || (c =? 160) || (c =? 5760)
  || ((8192 <=? c) && (c <=? 8202))
  || (c =? 8232) || (c =? 8233) || (c =? 8239) || (c =? 8287) || (c =? 12288).

Fixpoint lstrip (s : str) : str :=
  match s with
  | c :: s' => if isspace c then lstrip s' else s
  | [] => []
  end.

Definition rstrip (s : str) : str := reverse (lstrip (reverse s)).

Definition strip (s : str) : str := rstrip (lstrip s).

(** [s.rstrip(chars)] for a one-character [chars]. *)
Fixpoint lstrip_char (c : N) (s : str) : str :=
  match s with
  | d :: s' => if d =? c then lstrip_char c s' else s
  | [] => []
  end.

Definition rstrip_char (c : N) (s : str) : str :=
  reverse (lstrip_char c (reverse s)).

(** [s.split(sep, 1)[0]] for a one-character [sep]. *)
Fixpoint before_char (c : N) (s : str) : str :=
  match s with
  | d :: s' => if d =? c then [] else d :: before_char c s'
  | [] => []
  end.

(** ["".join(l)] *)
Definition join_empty (l : list str) : str := concat l.

(** [str(n)] for an [int]. *)
Definition str_of_int (z : Z) : str := py (pretty z).

(** [l[:n]] for [0 <= n] and [l[i:]] for any [i], on lists and strings. *)
Definition slice_to {A} (n : nat) (l : list A) : list A := take n l.

Definition slice_from {A} (i : Z) (l : list A) : list A :=
  if (i <? 0)%Z then drop (Z.to_nat (Z.max (Z.of_nat (length l) + i) 0)) l
  else drop (Z.to_nat i) l.

End PyStr.
Import PyStr.

(** ** JSON values and dictionaries

    A Python [dict] keeps its keys in insertion order, and [json.dump]
    writes them in that order: a dictionary is an association list. *)

Abbreviation dict V := (list (str * V)).

(** [d.get(k)] *)
Fixpoint dict_get {V} (k : str) (d : dict V) : option V :=
  match d with
  | [] => None
  | (k', v) :: d' => if str_eqb k' k then Some v else dict_get k d'
  end.

(** [d[k] = v]: an existing key keeps its place, a new key goes last. *)
Fixpoint dict_set {V} (k : str) (v : V) (d : dict V) : dict V :=
  match d with
  | [] => [(k, v)]
  | (k', v') :: d' =>
      if str_eqb k' k then (k, v) :: d' else (k', v') :: dict_set k v d'
  end.

(** [JNum m e] is the number written [m]e[e] (so [0.7] is [JNum 7 (-1)]). *)
Inductive json : Type :=
  | JNull
  | JBool (b : bool)
  | JNum (m e : Z)
  | JStr (s : str)
  | JArr (l : list json)
  | JObj (d : list (str * json)).

(** [j[k]] on a [dict], [j[i]] on a [list]; [None] is a raised
    [KeyError], [IndexError] or [TypeError]. *)
Definition json_key (k : str) (j : json) : option json :=
  match j with
  | JObj d => dict_get k d
  | _ => None
  end.

Definition json_index (i : nat) (j : json) : option json :=
  match j with
  | JArr l => l !! i
  | JStr s => (fun c => JStr [c]) <$> s !! i
  | _ => None
  end.

(** ** The world outside the plugin *)

Inductive http_method := GET | POST.

Record request := {
  req_method : http_method;
  req_url : str;
  req_headers : dict str;
  req_json : option json;
}.

(** An [httpx.Response]: [resp_content_type] is [headers.get("content-type")],
    [resp_json] is [None] when [resp.json()] raises. *)
Record response := {
  status_code : Z;
  reason_phrase : str;
  resp_content_type : option str;
  resp_content : list N;
  resp_text : str;
  resp_json : option json;
}.

(** [resp.raise_for_status()] raises [HTTPStatusError] unless the status
    is 2xx. *)
Definition is_success (r : response) : bool :=
  ((200 <=? status_code r) && (status_code r <=? 299))%Z.

(** What awaiting a request gives: a response, or a raised transport
    error. *)
Inductive http_result :=
  | Raised
  | Responded (r : response).

(** What [_get_prompt_file_path] and the file system say of the prompt
    file: not configured, configured but missing, unreadable, or its
    text. *)
Inductive prompt_source :=
  | PromptUnset
  | PromptMissing (path : str)
  | PromptUnreadable
  | PromptText (content : str).

(** The driver's configuration and the collaborators the plugin calls.
    A setting is an attribute of the configuration object:
    [config_openai_api_key] is [None] when the object has no attribute
    [openai_api_key] (reading it raises [AttributeError]), [Some None]
    when the attribute is [None] and [Some (Some key)] when it is a
    string; likewise for the two other settings. The remote answers a
    request given the requests sent before it. For the file system,
    [makedirs_ok] tells whether [os.makedirs(dir, exist_ok=True)]
    returns, [writable] whether [open(path, "w")] succeeds, and
    [write_through] whether the opened file then takes all that is
    written to it (it does not on a full disk). *)
Record environment := {
  config_openai_api_key : option (option str);
  config_openai_base_url : option str;
  config_openai_model : option str;
  prompt : prompt_source;
  cwd : str;
  remote : list request -> request -> http_result;
  makedirs_ok : str -> bool;
  writable : str -> bool;
  write_through : str -> bool;
}.

(** A file of the store parses as JSON or makes [json.load] raise. *)
Inductive file :=
  | FJson (j : json)
  | FCorrupt.

Inductive log_level := Warning | Error | Exception.

(** A call of the logger is recorded as it is made: its level, its
    message and the arguments passed after it ([ArgExc] is the caught
    exception). What the logger writes from them is not part of the
    model: the logger of the front-end fills [{}] placeholders, so a
    [%s] of the message is written as it stands and the arguments do not
    appear. *)
Inductive log_arg :=
  | ArgStr (s : str)
  | ArgInt (z : Z)
  | ArgExc.

Record log_entry := {
  log_level_of : log_level;
  log_format : str;
  log_args : list log_arg;
}.

(** The state the plugin acts on: the files under [data/openai], whether
    the shared HTTP client exists, the requests sent so far (oldest
    first), the log, and the messages sent back through [finish]. *)
Record world := {
  files : gmap str file;
  http_client : bool;
  net : list request;
  logs : list log_entry;
  sent : list str;
}.

(** ** A state monad over the world *)

Definition M (A : Type) : Type := world -> A * world.

Definition ret {A} (a : A) : M A := fun w => (a, w).

Definition bind {A B} (m : M A) (k : A -> M B) : M B :=
  fun w => let '(a, w') := m w in k a w'.

Notation "x <- m ;; k" := (bind m (fun x => k))
  (at level 100, m at next level, right associativity).
Notation "m ;;; k" := (bind m (fun _ => k))
  (at level 100, right associativity).

Definition emit (lvl : log_level) (fmt : str) (args : list log_arg) : M unit :=
  fun w => (tt, {| files := files w; http_client := http_client w;
                   net := net w; sent := sent w;
                   logs := logs w ++ [{| log_level_of := lvl; log_format := fmt;
                                         log_args := args |}] |}).

(** [X.finish(text)] sends the text back to the chat. *)
Definition finish (text : str) : M unit :=
  fun w => (tt, {| files := files w; http_client := http_client w;
                   net := net w; logs := logs w; sent := sent w ++ [text] |}).

(** [_init_http_client], as the functions call it when the client is
    [None]. *)
Definition _init_http_client : M unit :=
  fun w => (tt, {| files := files w; http_client := true;
                   net := net w; logs := logs w; sent := sent w |}).

Definition ensure_client : M unit :=
  fun w => if http_client w then (tt, w) else _init_http_client w.

(** How a function ends: it returns (or stops its handler with
    [finish]), or an exception leaves it uncaught. *)
Inductive ending := Ended | Escaped.

(** Awaiting a function that may raise: an exception it lets out leaves
    the caller as well. *)
Definition bind_raise {A} (m : M (option A)) (k : A -> M ending) : M ending :=
  bind m (fun o => match o with
                   | Some a => k a
                   | None => ret Escaped
                   end).

Definition and_then (m : M ending) (k : M ending) : M ending :=
  bind m (fun e => match e with
                   | Ended => k
                   | Escaped => ret Escaped
                   end).

Notation "x <-! m ;; k" := (bind_raise m (fun x => k))
  (at level 100, m at next level, right associativity).
Notation "m ;;! k" := (and_then m k)
  (at level 100, right associativity).

(** [http_client.get] and [http_client.post]: the request is recorded
    and the remote answers it. *)
Definition send_request (env : environment) (r : request) : M http_result :=
  fun w => (remote env (net w) r,
            {| files := files w; http_client := http_client w;
               net := net w ++ [r]; logs := logs w; sent := sent w |}).

(** [os.path.exists(path)] and [_read_json(path)] ([None] when it
    raises). *)
Definition path_exists (path : str) : M bool :=
  fun w => (bool_decide (is_Some (files w !! path)), w).

Definition _read_json (path : str) : M (option json) :=
  fun w => (match files w !! path with
            | Some (FJson j) => Some j
            | _ => None
            end, w).

(** A string the UTF-8 codec of an opened file encodes: it holds no
    surrogate code point (U+D800 to U+DFFF). [json.loads] does produce
    strings with lone surrogates, from escapes such as ["\ud83d"]. *)
Definition str_encodable (s : str) : bool :=
  forallb (fun c => negb ((55296 <=? c) && (c <=? 57343))) s.

(** A document [json.dump(..., ensure_ascii=False)] writes out in full:
    every string in it, keys included, encodes. *)
Fixpoint json_encodable (j : json) : bool :=
  match j with
  | JStr s => str_encodable s
  | JArr l => forallb json_encodable l
  | JObj d =>
      forallb (fun kv => match kv with
                         | (k, v) => str_encodable k && json_encodable v
                         end) d
  | _ => true
  end.

(** [_write_json(path, data)]; [false] when it raises. [open(path, "w")]
    raises on a path that cannot be written and leaves the file as it
    was; once opened the file is empty, and [json.dump] streams the
    document into it: when a string does not encode or the file does not
    take the whole text, the write raises part-way and leaves a cut-off
    file, which no longer parses. *)
Definition _write_json (env : environment) (path : str) (data : json) : M bool :=
  fun w => if negb (writable env path) then (false, w)
           else if json_encodable data && write_through env path
           then (true, {| files := <[path := FJson data]> (files w);
                          http_client := http_client w; net := net w;
                          logs := logs w; sent := sent w |})
           else (false, {| files := <[path := FCorrupt]> (files w);
                           http_client := http_client w; net := net w;
                           logs := logs w; sent := sent w |}).

(** [os.path.join(a, b)] of [posixpath]. *)
Definition path_join (a b : str) : str :=
  if startswith (py "/") b then b
  else if negb (nonempty a) || endswith (py "/") a then a ++ b
  else a ++ py "/" ++ b.

(** ** The plugin *)

Section Plugin.

Variable env : environment.

Definition MAX_CONTEXT_MESSAGES : nat := 20.

Definition CONTEXT_DIR : str :=
  path_join (path_join (cwd env) (py "data")) (py "openai").

Definition USER_SETTINGS_DIR : str := path_join CONTEXT_DIR (py "users").

(** A message segment of the front-end: its type and its data. *)
Record segment := {
  seg_type : str;
  seg_data : dict str;
}.

(** A [MessageEvent]: [get_user_id()], the [group_id] attribute when
    there is one, and the message. *)
Record event := {
  user_id : str;
  group_id : option Z;
  message : list segment;
}.

(** [_get_openai_config()]: it reads the three settings as attributes,
    in this order, and raises ([None]) at the first that is missing. *)
Definition _get_openai_config : option (option str * str * str) :=
  api_key ← config_openai_api_key env;
  base_url ← config_openai_base_url env;
  model ← config_openai_model env;
  Some (api_key, base_url, model).

(** The API key and the base url as [_get_openai_config()] hands them to
    [_call_openai] and [_fetch_models]; when it raises there is no key
    to use and no url. *)
Definition openai_api_key : option str :=
  match _get_openai_config with
  | Some (api_key, _, _) => api_key
  | None => None
  end.

Definition openai_base_url : str :=
  match _get_openai_config with
  | Some (_, base_url, _) => base_url
  | None => []
  end.

(** [config.openai_model] as [_get_user_model] reads it: [None] when the
    setting is missing and the read raises. *)
Definition openai_model : option str := config_openai_model env.

(** [not api_key]: [None] and the empty string are falsy. *)
Definition falsy_opt (s : option str) : bool :=
  match s with
  | Some s => negb (nonempty s)
  | None => true
  end.

Definition _load_prompt_message : M (option json) :=
  match prompt env with
  | PromptUnset => ret None
  | PromptMissing path =>
      emit Warning (py "Prompt file not found: %s") [ArgStr path];;;
      ret None
  | PromptUnreadable =>
      emit Exception (py "Failed to load prompt file: %s") [ArgExc];;;
      ret None
  | PromptText text =>
      let content := strip text in
      if negb (nonempty content) then ret None
      else ret (Some (JObj [(py "role", JStr (py "system"));
                            (py "content", JStr content)]))
  end.

Definition _get_session_id (ev : event) : str :=
  match group_id ev with
  | Some g => if (g =? 0)%Z then user_id ev
              else str_of_int g ++ py "_" ++ user_id ev
  | None => user_id ev
  end.

Definition _get_user_settings_path (ev : event) : str :=
  path_join USER_SETTINGS_DIR (user_id ev ++ py ".json").

Definition _load_user_settings (ev : event) : M (dict json) :=
  let path := _get_user_settings_path ev in
  ex <- path_exists path;;
  if negb ex then ret []
  else
    data <- _read_json path;;
    match data with
    | Some (JObj d) => ret d
    | Some _ =>
        emit Warning (py "Invalid user settings format in %s") [ArgStr path];;;
        ret []
    | None =>
        emit Exception (py "Failed to load user settings: %s") [ArgExc];;;
        ret []
    end.

(** [_save_user_settings]: [os.makedirs] stands before the [try], so
    its exception leaves the function; an exception of [_write_json] is
    logged and the function returns. *)
Definition _save_user_settings (ev : event) (settings : dict json)
    : M ending :=
  if negb (makedirs_ok env USER_SETTINGS_DIR) then ret Escaped
  else
    let path := _get_user_settings_path ev in
    ok <- _write_json env path (JObj settings);;
    (if ok then ret tt
     else emit Exception (py "Failed to save user settings: %s") [ArgExc]);;;
    ret Ended.

(** [_get_user_model]; [None] when it falls back to [config.openai_model]
    and that setting is missing. *)
Definition _get_user_model (ev : event) : M (option str) :=
  settings <- _load_user_settings ev;;
  match dict_get (py "model") settings with
  | Some (JStr model) => if nonempty model then ret (Some model)
                         else ret openai_model
  | _ => ret openai_model
  end.

Definition _set_user_model (ev : event) (model : str) : M ending :=
  settings <- _load_user_settings ev;;
  let settings := dict_set (py "model") (JStr model) settings in
  _save_user_settings ev settings.

Definition _get_context_path (ev : event) : str :=
  let session_id := _get_session_id ev in
  path_join CONTEXT_DIR (session_id ++ py ".json").

Definition _load_context (ev : event) : M (list json) :=
  let path := _get_context_path ev in
  ex <- path_exists path;;
  if negb ex then ret []
  else
    data <- _read_json path;;
    match data with
    | Some (JArr l) => ret l
    | Some _ =>
        emit Warning (py "Invalid context format in %s") [ArgStr path];;;
        ret []
    | None =>
        emit Exception (py "Failed to load context: %s") [ArgExc];;;
        ret []
    end.

(** [_save_context]: as [_save_user_settings], with [os.makedirs]
    before the [try]. *)
Definition _save_context (ev : event) (messages : list json) : M ending :=
  if negb (makedirs_ok env CONTEXT_DIR) then ret Escaped
  else
    let path := _get_context_path ev in
    ok <- _write_json env path (JArr messages);;
    (if ok then ret tt
     else emit Exception (py "Failed to save context: %s") [ArgExc]);;;
    ret Ended.

(** [data["choices"][0]["message"]["content"].strip()]; [None] when a
    lookup or the call of [strip] raises. *)
Definition reply_content (data : json) : option str :=
  choices ← json_key (py "choices") data;
  first ← json_index 0 choices;
  msg ← json_key (py "message") first;
  content ← json_key (py "content") msg;
  match content with
  | JStr s => Some (strip s)
  | _ => None
  end.

(** The request [_call_openai] posts: its [url], [headers] and
    [payload]. *)
Definition completion_request (messages : list json) (model : str) : request :=
  let api_key := openai_api_key in
  let base_url := openai_base_url in
  let url := rstrip_char 47 base_url ++ py "/chat/completions" in
  let headers := [(py "Authorization", py "Bearer " ++ default [] api_key)] in
  let payload := JObj [(py "model", JStr model);
                       (py "messages", JArr messages);
                       (py "temperature", JNum 7 (-1))] in
  {| req_method := POST; req_url := url; req_headers := headers;
     req_json := Some payload |}.

(** [body] as the handler of [HTTPStatusError] logs it. *)
Definition logged_body (body : str) : str :=
  if (1000 <? length body)%nat then slice_to 1000 body ++ py "..." else body.

(** [_call_openai]; [None] when it raises, which it does when
    [_get_openai_config()], called before the [try], finds a setting
    missing. *)
Definition _call_openai (messages : list json) (model : str)
    : M (option str) :=
  match _get_openai_config with
  | None => ret None
  | Some (api_key, base_url, _) =>
      if falsy_opt api_key then ret (Some (py "缺少 OPENAI_API_KEY 配置。"))
      else
        let failed :=
          emit Exception (py "OpenAI request failed: %s") [ArgExc];;;
          ret (Some (py "请求 OpenAI 失败，请稍后再试。")) in
        ensure_client;;;
        r <- send_request env (completion_request messages model);;
        match r with
        | Raised => failed
        | Responded resp =>
            if is_success resp then
              match resp_json resp ≫= reply_content with
              | Some reply => ret (Some reply)
              | None => failed
              end
            else
              let body := logged_body (resp_text resp) in
              emit Error (py "OpenAI request failed: %s %s; body=%s")
                   [ArgInt (status_code resp); ArgStr (reason_phrase resp);
                    ArgStr body];;;
              ret (Some (py "上游返回错误 " ++ str_of_int (status_code resp)
                         ++ py "，请稍后再试。"))
        end
  end.

Definition _infer_image_mime (file_value : str) : str :=
  let lowered := lower file_value in
  if endswith (py ".jpg") lowered || endswith (py ".jpeg") lowered
  then py "image/jpeg"
  else if endswith (py ".gif") lowered then py "image/gif"
  else if endswith (py ".webp") lowered then py "image/webp"
  else py "image/png".

Definition _normalize_image_data_url
    (file_value base64_value : str) (mime : option str) : str :=
  if startswith (py "data:image/") base64_value then base64_value
  else
    let mime_value := if falsy_opt mime then _infer_image_mime file_value
                      else default [] mime in
    py "data:" ++ mime_value ++ py ";base64," ++ base64_value.

(** [base64.b64encode(bs).decode("ascii")] on a list of bytes. *)
Definition b64_char (i : N) : N :=
  if i <? 26 then 65 + i
  else if i <? 52 then 97 + (i - 26)
  else if i <? 62 then 48 + (i - 52)
  else if i =? 62 then 43
  else 47.

Fixpoint b64encode (bs : list N) : str :=
  match bs with
  | [] => []
  | [a] => [b64_char (a / 4); b64_char (a mod 4 * 16); 61; 61]
  | [a; b] =>
      [b64_char (a / 4); b64_char (a mod 4 * 16 + b / 16);
       b64_char (b mod 16 * 4); 61]
  | a :: b :: c :: rest =>
      b64_char (a / 4) :: b64_char (a mod 4 * 16 + b / 16)
        :: b64_char (b mod 16 * 4 + c / 64) :: b64_char (c mod 64)
        :: b64encode rest
  end.

(** [_fetch_image_base64(url)]; [None] when the request or
    [raise_for_status] raises. *)
Definition _fetch_image_base64 (url : str) : M (option (str * option str)) :=
  ensure_client;;;
  r <- send_request env {| req_method := GET; req_url := url;
                           req_headers := []; req_json := None |};;
  match r with
  | Raised => ret None
  | Responded resp =>
      if is_success resp then
        let content_type :=
          strip (before_char 59 (default [] (resp_content_type resp))) in
        let encoded := b64encode (resp_content resp) in
        ret (Some (encoded,
                   if nonempty content_type then Some content_type else None))
      else ret None
  end.

(** The parts of a user turn: [TextPart text] is the dictionary
    [{"type": "text", "text": text}] and [ImagePart url] is
    [{"type": "image_url", "image_url": {"url": url}}]. *)
Inductive part :=
  | TextPart (text : str)
  | ImagePart (url : str).

Definition part_json (p : part) : json :=
  match p with
  | TextPart text =>
      JObj [(py "type", JStr (py "text")); (py "text", JStr text)]
  | ImagePart url =>
      JObj [(py "type", JStr (py "image_url"));
            (py "image_url", JObj [(py "url", JStr url)])]
  end.

Definition _build_image_part (seg : segment) : M (option part) :=
  let file_value := default [] (dict_get (py "file") (seg_data seg)) in
  let base64_value := default [] (dict_get (py "base64") (seg_data seg)) in
  let base64_value :=
    if negb (nonempty base64_value) && startswith (py "base64://") file_value
    then slice_from (Z.of_nat (length (py "base64://"))) file_value
    else base64_value in
  if nonempty base64_value then
    let url := _normalize_image_data_url file_value base64_value None in
    ret (Some (ImagePart url))
  else
    let url_value := default [] (dict_get (py "url") (seg_data seg)) in
    if negb (nonempty url_value) then ret None
    else
      fetched <- _fetch_image_base64 url_value;;
      match fetched with
      | None =>
          emit Warning (py "Failed to fetch image url %s: %s")
               [ArgStr url_value; ArgExc];;;
          ret None
      | Some (fetched_base64, mime) =>
          if negb (nonempty fetched_base64) then ret None
          else
            let url := _normalize_image_data_url url_value fetched_base64 mime in
            ret (Some (ImagePart url))
      end.

(** [_flush_text()] on the two lists it closes over. *)
Definition _flush_text (parts : list part) (text_buffer : list str)
    : list part * list str :=
  if bool_decide (text_buffer = []) then (parts, text_buffer)
  else
    let text := strip (join_empty text_buffer) in
    if nonempty text then (parts ++ [TextPart text], [])
    else (parts, []).

(** The loop of [_build_user_message] over the segments. *)
Fixpoint scan_segments (msg : list segment) (parts : list part)
    (text_buffer : list str) : M (list part * list str) :=
  match msg with
  | [] => ret (parts, text_buffer)
  | seg :: rest =>
      if str_eqb (seg_type seg) (py "text") then
        scan_segments rest parts
          (text_buffer ++ [default [] (dict_get (py "text") (seg_data seg))])
      else if negb (str_eqb (seg_type seg) (py "image")) then
        scan_segments rest parts text_buffer
      else
        let '(parts, text_buffer) := _flush_text parts text_buffer in
        image_part <- _build_image_part seg;;
        match image_part with
        | Some p => scan_segments rest (parts ++ [p]) text_buffer
        | None => scan_segments rest parts text_buffer
        end
  end.

(** The parts the scan and the last flush leave. *)
Definition assemble_parts (msg : list segment) : M (list part) :=
  st <- scan_segments msg [] [];;
  ret (fst (_flush_text (fst st) (snd st))).

Definition user_turn (content : json) : json :=
  JObj [(py "role", JStr (py "user")); (py "content", content)].

Definition _build_user_message (msg : list segment) : M (option json) :=
  parts <- assemble_parts msg;;
  match parts with
  | [] => ret None
  | [TextPart text] => ret (Some (user_turn (JStr text)))
  | _ => ret (Some (user_turn (JArr (part_json <$> parts))))
  end.

Definition _build_messages (history : list json) (user_message : json)
    : M (list json) :=
  prompt_msg <- _load_prompt_message;;
  let messages := match prompt_msg with Some p => [p] | None => [] end in
  let messages := messages ++ history in
  ret (messages ++ [user_message]).

Definition _infer_model_features (model_id : str) : list str :=
  let lowered := lower model_id in
  let features := [py "文本"] in
  let features :=
    if contains (py "vision") lowered || contains (py "gpt-4o") lowered
    then features ++ [py "视觉"] else features in
  if startswith (py "o1") lowered || contains (py "reason") lowered
  then features ++ [py "思考"] else features.

Definition assistant_turn (reply : str) : json :=
  JObj [(py "role", JStr (py "assistant")); (py "content", JStr reply)].

(** What both handlers do to [history] once the reply is there: the two
    [append]s and the cut to the last [MAX_CONTEXT_MESSAGES] entries. *)
Definition append_and_trim (history : list json) (user_message : json)
    (reply : str) : list json :=
  let history := history ++ [user_message] in
  let history := history ++ [assistant_turn reply] in
  if (MAX_CONTEXT_MESSAGES <? length history)%nat
  then slice_from (- Z.of_nat MAX_CONTEXT_MESSAGES) history
  else history.

(** The handler of the [chat] command; [args] is the command argument.
    [finish] ends the handler; an exception of [_get_user_model],
    [_call_openai] or [_save_context] leaves it before the reply is
    sent. *)
Definition chat_handler (ev : event) (args : list segment) : M ending :=
  user_message <- _build_user_message args;;
  match user_message with
  | None => finish (py "请提供内容。用法: /chat 你好");;; ret Ended
  | Some user_message =>
      history <- _load_context ev;;
      messages <- _build_messages history user_message;;
      model <-! _get_user_model ev;;
      reply <-! _call_openai messages model;;
      (if nonempty reply
       then _save_context ev (append_and_trim history user_message reply)
       else ret Ended);;!
      finish reply;;; ret Ended
  end.

(** The handler of the messages addressed to the bot. *)
Definition tome_handler (ev : event) : M ending :=
  user_message <- _build_user_message (message ev);;
  match user_message with
  | None => ret Ended
  | Some user_message =>
      history <- _load_context ev;;
      messages <- _build_messages history user_message;;
      model <-! _get_user_model ev;;
      reply <-! _call_openai messages model;;
      (if nonempty reply
       then _save_context ev (append_and_trim history user_message reply)
       else ret Ended);;!
      finish reply;;; ret Ended
  end.

End Plugin.

(** ** Notions the properties are stated with *)

(** A computation [keeps_store] when it writes no file and sends nothing
    to the chat. *)
Definition keeps_store {A} (m : M A) : Prop :=
  forall w, files (snd (m w)) = files w /\ sent (snd (m w)) = sent w.

(** The part both handlers share, from loading the history to sending
    the reply. *)
Definition converse (env : environment) (ev : event) (user_message : json)
    : M ending :=
  history <- _load_context env ev;;
  messages <- _build_messages env history user_message;;
  model <-! _get_user_model env ev;;
  reply <-! _call_openai env messages model;;
  (if nonempty reply
   then _save_context env ev (append_and_trim history user_message reply)
   else ret Ended);;!
  finish reply;;; ret Ended.

(** The three notices [_call_openai] returns instead of a reply. *)
Definition is_failure_notice (s : str) : Prop :=
  s = py "缺少 OPENAI_API_KEY 配置。"
  \/ s = py "请求 OpenAI 失败，请稍后再试。"
  \/ exists status : Z,
       s = py "上游返回错误 " ++ str_of_int status ++ py "，请稍后再试。".

(** An answer of the remote that makes the completion call fail: a
    transport error, a status outside 2xx, or a body without a reply. *)
Definition failed_result (r : http_result) : bool :=
  match r with
  | Raised => true
  | Responded resp =>
      negb (is_success resp)
      || (if resp_json resp ≫= reply_content is Some _ then false else true)
  end.

(** The request [_fetch_image_base64] sends for [url]. *)
Definition image_request (url : str) : request :=
  {| req_method := GET; req_url := url; req_headers := []; req_json := None |}.

(** The inline payload of an image segment: its "base64" field, or else
    what follows "base64://" in its "file" field. *)
Definition inline_payload (seg : segment) : str :=
  let file_value := default [] (dict_get (py "file") (seg_data seg)) in
  let base64_value := default [] (dict_get (py "base64") (seg_data seg)) in
  if negb (nonempty base64_value) && startswith (py "base64://") file_value
  then slice_from 9 file_value
  else base64_value.

(** The MIME type given to fetched bytes: the content type of the
    response without its parameters, or else the one the URL suggests. *)
Definition fetched_mime (url_value : str) (resp : response) : str :=
  let content_type :=
    strip (before_char 59 (default [] (resp_content_type resp))) in
  if nonempty content_type then content_type
  else _infer_image_mime url_value.

(** [url] is what the image segment [seg] resolves to: its inline
    payload, kept when it is a data URI already and wrapped into one
    otherwise; or, without an inline payload, the bytes a successful
    [GET] of its "url" field returned, base64-encoded into a data URI. *)
Definition resolved_from (env : environment) (seg : segment) (url : str)
    : Prop :=
  let file_value := default [] (dict_get (py "file") (seg_data seg)) in
  let url_value := default [] (dict_get (py "url") (seg_data seg)) in
  (nonempty (inline_payload seg) = true /\
   ((startswith (py "data:image/") (inline_payload seg) = true /\
     url = inline_payload seg)
    \/ url = py "data:" ++ _infer_image_mime file_value ++ py ";base64,"
              ++ inline_payload seg))
  \/ (nonempty (inline_payload seg) = false /\
      nonempty url_value = true /\
      exists past resp,
        remote env past (image_request url_value) = Responded resp /\
        is_success resp = true /\
        url = py "data:" ++ fetched_mime url_value resp ++ py ";base64,"
              ++ b64encode (resp_content resp)).

(** A part of a user turn built from [msg] is a text part, or an image
    part resolved from an image segment of [msg]. *)
Definition good_part (env : environment) (msg : list segment) (p : part)
    : Prop :=
  match p with
  | TextPart _ => True
  | ImagePart url =>
      exists seg, seg ∈ msg /\ seg_type seg = py "image"
                  /\ resolved_from env seg url
  end.

(** ** Sample inputs *)

Module Sample.

Definition empty_world : world :=
  {| files := ∅; http_client := false; net := []; logs := []; sent := [] |}.

Definition ok_response (content : str) : response :=
  {| status_code := 200; reason_phrase := py "OK";
     resp_content_type := Some (py "application/json");
     resp_content := []; resp_text := [];
     resp_json :=
       Some (JObj [(py "choices",
                    JArr [JObj [(py "message",
                                 JObj [(py "role", JStr (py "assistant"));
                                       (py "content", JStr content)])]])]) |}.

Definition error_response (status : Z) (body : str) : response :=
  {| status_code := status; reason_phrase := py "Internal Server Error";
     resp_content_type := Some (py "text/plain");
     resp_content := []; resp_text := body; resp_json := None |}.

(** A provider that answers every request with [resp]. *)
Definition env_with (key : option str) (resp : http_result) : environment :=
  {| config_openai_api_key := Some key;
     config_openai_base_url := Some (py "https://api.example.com/v1/");
     config_openai_model := Some (py "gpt-4o-mini");
     prompt := PromptUnset;
     cwd := py "/srv/bot";
     remote := fun _ _ => resp;
     makedirs_ok := fun _ => true;
     writable := fun _ => true;
     write_through := fun _ => true |}.

Definition env_ok : environment :=
  env_with (Some (py "sk-test")) (Responded (ok_response (py " Hi there "))).


Definition env_no_key : environment :=
  env_with None (Responded (ok_response (py " Hi there "))).

Definition long_body : str := replicate 1001 97.

Definition env_500 : environment :=
  env_with (Some (py "sk-test")) (Responded (error_response 500 long_body)).

Definition text_segment (text : str) : segment :=
  {| seg_type := py "text"; seg_data := [(py "text", text)] |}.

Definition image_segment (data : dict str) : segment :=
  {| seg_type := py "image"; seg_data := data |}.

Definition hello : list segment := [text_segment (py "hello")].

Definition alice : event :=
  {| user_id := py "10001"; group_id := Some 77%Z; message := hello |}.

(** A provider that serves three bytes of a JPEG to every [GET]. *)
Definition photo_response : response :=
  {| status_code := 200; reason_phrase := py "OK";
     resp_content_type := Some (py "image/jpeg; charset=binary");
     resp_content := [255; 216; 255]; resp_text := []; resp_json := None |}.

Definition env_photo : environment :=
  {| config_openai_api_key := Some (Some (py "sk-test"));
     config_openai_base_url := Some (py "https://api.example.com/v1/");
     config_openai_model := Some (py "gpt-4o-mini");
     prompt := PromptUnset;
     cwd := py "/srv/bot";
     remote := fun _ req =>
       match req_method req with
       | GET => Responded photo_response
       | POST => Responded (ok_response (py "A cat."))
       end;
     makedirs_ok := fun _ => true;
     writable := fun _ => true;
     write_through := fun _ => true |}.

Definition look_at_cat : list segment :=
  [text_segment (py "look ");
   image_segment [(py "file", py "cat.bin");
                  (py "url", py "https://example.com/cat")]].

(** A configuration without the [openai_api_key] setting. *)
Definition env_unset_key : environment :=
  {| config_openai_api_key := None;
     config_openai_base_url := Some (py "https://api.example.com/v1/");
     config_openai_model := Some (py "gpt-4o-mini");
     prompt := PromptUnset;
     cwd := py "/srv/bot";
     remote := fun _ _ => Responded (ok_response (py " Hi there "));
     makedirs_ok := fun _ => true;
     writable := fun _ => true;
     write_through := fun _ => true |}.

(** A world where [alice] already has a history that fills the window:
    ten exchanges. *)
Definition long_history : list json :=
  mjoin (replicate 10 [JObj [(py "role", JStr (py "user"));
                             (py "content", JStr (py "ping"))];
                       JObj [(py "role", JStr (py "assistant"));
                             (py "content", JStr (py "pong"))]]).

Definition busy_world : world :=
  {| files := {[ _get_context_path env_ok alice
                 := FJson (JArr long_history) ]};
     http_client := false; net := []; logs := []; sent := [] |}.

(** A message whose text ends in half an emoji. *)
Definition half_emoji : list segment := [text_segment (py "hi " ++ [55357])].

(** A model name that ends in a lone surrogate, as the escape
    ["\ud83d"] of a JSON text gives. *)
Definition cut_emoji : str := py "gpt-" ++ [55357].

(** A world where the settings of [alice] hold a model and a language. *)
Definition alice_settings : dict json :=
  [(py "lang", JStr (py "zh")); (py "model", JStr (py "gpt-3.5-turbo"));
   (py "nick", JStr (py "Al"))].

Definition settings_world : world :=
  {| files := {[ _get_user_settings_path env_ok alice
                 := FJson (JObj alice_settings) ]};
     http_client := false; net := []; logs := []; sent := [] |}.

End Sample.

(** ** Notions of the further properties *)

(** The text a segment carries: [segment.data.get("text", "")]. *)
Definition segment_text (seg : segment) : str :=
  default [] (dict_get (py "text") (seg_data seg)).

(** The segments [_build_user_message] looks at. *)
Definition text_or_image (seg : segment) : Prop :=
  seg_type seg = py "text" \/ seg_type seg = py "image".

(** A part that is not empty: a text that is non-empty and has no
    surrounding whitespace left, or an image with a non-empty url. *)
Definition solid_part (p : part) : Prop :=
  match p with
  | TextPart text => nonempty text = true /\ strip text = text
  | ImagePart url => nonempty url = true
  end.

(** A computation [keeps_net] when it sends no request. *)
Definition keeps_net {A} (m : M A) : Prop :=
  forall w, net (snd (m w)) = net w.

(** ** The model directory: listing and choosing

    The rest of the plugin: [_fetch_models], [_send_model_list] and the
    handler of the [model] command. [_send_model_list] also calls the
    API of the bot, and an exception can leave it uncaught; both are
    part of what the embedded function returns. *)

(** [sep.join(l)] *)
Fixpoint join (sep : str) (l : list str) : str :=
  match l with
  | [] => []
  | [a] => a
  | a :: rest => a ++ sep ++ join sep rest
  end.

(** [a <= b] on strings: code point by code point, a prefix first. *)
Fixpoint str_leb (a b : str) : bool :=
  match a, b with
  | [], _ => true
  | _ :: _, [] => false
  | x :: a', y :: b' =>
      if x <? y then true else if y <? x then false else str_leb a' b'
  end.

Definition str_le (a b : str) : Prop := str_leb a b = true.

#[global] Instance str_le_dec : RelDecision str_le :=
  fun a b => decide (str_leb a b = true).

(** [entries.sort()] *)
Definition sort_entries (entries : list str) : list str :=
  merge_sort str_le entries.

(** The truth value of a JSON value in a condition. *)
Definition json_truthy (j : json) : bool :=
  match j with
  | JNull => false
  | JBool b => b
  | JNum m _ => negb (m =? 0)%Z
  | JStr s => nonempty s
  | JArr l => match l with [] => false | _ => true end
  | JObj d => match d with [] => false | _ => true end
  end.

(** A call of [bot.call_api("send_group_forward_msg", ...)]. *)
Record api_call := {
  api_name : str;
  api_group_id : Z;
  api_messages : list json;
}.

(** The bot: its [self_id], and whether a call of its API returns
    ([true]) or raises. *)
Record bot := {
  self_id : str;
  call_api : api_call -> bool;
}.

Section Directory.

Variable env : environment.

(** [args.extract_plain_text()] of the front-end. *)
Variable extract_plain_text : list segment -> str.

(** The request [_fetch_models] sends. *)
Definition models_request : request :=
  let api_key := openai_api_key env in
  let base_url := openai_base_url env in
  let url := rstrip_char 47 base_url ++ py "/models" in
  let headers := [(py "Authorization", py "Bearer " ++ default [] api_key)] in
  {| req_method := GET; req_url := url; req_headers := headers;
     req_json := None |}.

(** [_fetch_models()]; [None] when it raises: a missing setting, a
    transport error, a status outside 2xx, a body that is not JSON, or
    JSON that is not an object (it has no [get]). *)
Definition _fetch_models : M (option (list json)) :=
  match _get_openai_config env with
  | None => ret None
  | Some (api_key, base_url, _) =>
      if falsy_opt api_key then ret (Some [])
      else
        ensure_client;;;
        r <- send_request env models_request;;
        match r with
        | Raised => ret None
        | Responded resp =>
            if is_success resp then
              match resp_json resp with
              | Some (JObj data) =>
                  match default (JArr []) (dict_get (py "data") data) with
                  | JArr models => ret (Some models)
                  | _ => ret (Some [])
                  end
              | _ => ret None
              end
            else ret None
        end
  end.

(** One entry of the list: the identifier, a new line, and the tags. *)
Definition model_entry (model_id : str) : str :=
  let features := join (py "、") (_infer_model_features model_id) in
  model_id ++ [10] ++ py "特性: " ++ features.

(** The loop of [_send_model_list] over the models; [None] when an item
    makes it raise: an item that is not a dictionary (it has no [get]),
    or an "id" that is truthy and not a string (it has no [lower]). *)
Fixpoint model_entries (models : list json) : option (list str) :=
  match models with
  | [] => Some []
  | item :: rest =>
      match item with
      | JObj d =>
          match dict_get (py "id") d with
          | Some (JStr model_id) =>
              if nonempty model_id
              then cons (model_entry model_id) <$> model_entries rest
              else model_entries rest
          | Some model_id =>
              if json_truthy model_id then None else model_entries rest
          | None => model_entries rest
          end
      | _ => None
      end
  end.

Definition forward_node (b : bot) (entry : str) : json :=
  JObj [(py "type", JStr (py "node"));
        (py "data", JObj [(py "name", JStr (py "A2Bot"));
                          (py "uin", JStr (self_id b));
                          (py "content", JStr entry)])].

Definition _send_model_list (b : bot) (ev : event)
    : M (list api_call * ending) :=
  models <- _fetch_models;;
  match models with
  | None =>
      emit Exception (py "Fetch models failed: %s") [ArgExc];;;
      finish (py "获取模型列表失败，请稍后再试。");;;
      ret ([], Ended)
  | Some [] =>
      finish (py "未获取到模型列表。");;;
      ret ([], Ended)
  | Some models =>
      match model_entries models with
      | None => ret ([], Escaped)
      | Some entries =>
          let entries := sort_entries entries in
          let nodes := forward_node b <$> entries in
          let in_group :=
            match group_id ev with
            | Some g => if (g =? 0)%Z then None else Some g
            | None => None
            end in
          match in_group with
          | Some g =>
              let call := {| api_name := py "send_group_forward_msg";
                             api_group_id := g; api_messages := nodes |} in
              if call_api b call then
                finish (py "模型列表已发送。");;;
                ret ([call], Ended)
              else ret ([call], Escaped)
          | None =>
              let text := join [10; 10] entries in
              finish text;;;
              ret ([], Ended)
          end
      end
  end.

(** The handler of the [model] command. *)
Definition model_handler (b : bot) (ev : event) (args : list segment)
    : M (list api_call * ending) :=
  let text := strip (extract_plain_text args) in
  if negb (nonempty text) then _send_model_list b ev
  else
    saved <- _set_user_model env ev text;;
    match saved with
    | Escaped => ret ([], Escaped)
    | Ended =>
        finish (py "已切换到模型: " ++ text);;;
        ret ([], Ended)
    end.

End Directory.

(** An item a listing can show or skip: a dictionary whose "id" is a
    string or is falsy. *)
Definition listable (item : json) : bool :=
  match item with
  | JObj d =>
      match dict_get (py "id") d with
      | Some (JStr _) => true
      | Some model_id => negb (json_truthy model_id)
      | None => true
      end
  | _ => false
  end.

(** The identifier a listing shows for an item, when it shows one. *)
Definition listed_id (item : json) : option str :=
  match item with
  | JObj d =>
      match dict_get (py "id") d with
      | Some (JStr model_id) =>
          if nonempty model_id then Some model_id else None
      | _ => None
      end
  | _ => None
  end.

(** The group a message came from: its [group_id] when that is truthy. *)
Definition group_of (ev : event) : option Z :=
  match group_id ev with
  | Some g => if (g =? 0)%Z then None else Some g
  | None => None
  end.

(** An answer of the remote that makes [_fetch_models] raise: a
    transport error, a status outside 2xx, or a body that is not a JSON
    object. *)
Definition failed_listing (r : http_result) : bool :=
  match r with
  | Raised => true
  | Responded resp =>
      negb (is_success resp)
      || (if resp_json resp is Some (JObj _) then false else true)
  end.

Module SampleDirectory.

Definition a2bot : bot :=
  {| self_id := py "424242"; call_api := fun _ => true |}.

Definition model_item (model_id : str) : json :=
  JObj [(py "id", JStr model_id); (py "object", JStr (py "model"))].

Definition models_response : response :=
  {| status_code := 200; reason_phrase := py "OK";
     resp_content_type := Some (py "application/json");
     resp_content := []; resp_text := [];
     resp_json :=
       Some (JObj [(py "object", JStr (py "list"));
                   (py "data",
                    JArr [model_item (py "o1-preview");
                          JObj [(py "object", JStr (py "model"))];
                          model_item (py "gpt-4o-mini")])]) |}.

Definition env_models : environment :=
  Sample.env_with (Some (py "sk-test")) (Responded models_response).

Definition bob : event :=
  {| user_id := py "10003"; group_id := None; message := [] |}.

(** A front-end that reads the text of the text segments. *)
Definition plain_text (msg : list segment) : str :=
  join_empty (segment_text <$>
              filter (fun seg => seg_type seg = py "text") msg).

End SampleDirectory.

(** * Properties *)

Example py_ascii : py "o1" = [111; 49].
Proof. reflexivity. Qed.

Example py_cjk : py "文本" = [25991; 26412].
Proof. reflexivity. Qed.

Example str_of_int_500 : str_of_int 500 = py "500".
Proof. reflexivity. Qed.

(** ** Strings and slices *)

Lemma startswith_app (p s : str) :
  startswith p s = true <-> exists t, s = p ++ t.
Proof.
  revert s. induction p as [|a p IH]; intros s; simpl.
  - split; [intros _; by exists s | done].
  - destruct s as [|b s]; simpl.
    + split; [done | intros [t Ht]; discriminate].
    + rewrite andb_true_iff, N.eqb_eq, IH. split.
      * intros [-> [t ->]]. by exists t.
      * intros [t Ht]. injection Ht as -> ->. eauto.
Qed.

Lemma slice_from_neg_drop {A} (n : nat) (l : list A) :
  (0 < n)%nat -> slice_from (- Z.of_nat n) l = drop (length l - n) l.
Proof.
  intros Hn. unfold slice_from.
  destruct (Z.ltb_spec (- Z.of_nat n) 0) as [_|H]; [|lia].
  f_equal. lia.
Qed.

(** ** The history window *)

Section Window.

Variables (history : list json) (user_message : json) (reply : str).

Let appended : list json := history ++ [user_message; assistant_turn reply].

Lemma append_and_trim_drop :
  append_and_trim history user_message reply
  = drop (length appended - MAX_CONTEXT_MESSAGES) appended.
Proof.
  unfold append_and_trim, appended. rewrite <- app_assoc. simpl.
  set (h := history ++ _).
  destruct (Nat.ltb_spec MAX_CONTEXT_MESSAGES (length h)) as [H|H].
  - apply slice_from_neg_drop. unfold MAX_CONTEXT_MESSAGES. lia.
  - replace (length h - MAX_CONTEXT_MESSAGES)%nat with 0%nat by lia. done.
Qed.

Lemma append_and_trim_length :
  length (append_and_trim history user_message reply)
  = Nat.min MAX_CONTEXT_MESSAGES (length history + 2).
Proof.
  rewrite append_and_trim_drop, length_drop. unfold appended.
  rewrite length_app. cbn [length]. lia.
Qed.

Lemma append_and_trim_suffix :
  appended
  = take (length appended - MAX_CONTEXT_MESSAGES) appended
    ++ append_and_trim history user_message reply.
Proof. rewrite append_and_trim_drop. symmetry. apply take_drop. Qed.

Lemma append_and_trim_newest :
  exists older,
    append_and_trim history user_message reply
    = older ++ [user_message; assistant_turn reply].
Proof.
  rewrite append_and_trim_drop. unfold appended.
  destruct (decide (length history + 2 <= MAX_CONTEXT_MESSAGES)%nat) as [H|H].
  - exists history. rewrite length_app. cbn [length].
    replace (length history + 2 - MAX_CONTEXT_MESSAGES)%nat with 0%nat by lia.
    done.
  - exists (drop (length history + 2 - MAX_CONTEXT_MESSAGES) history).
    rewrite length_app. cbn [length]. rewrite drop_app_le; [done|].
    unfold MAX_CONTEXT_MESSAGES in *. lia.
Qed.

End Window.

(** ** What the functions leave alone *)

Lemma bind_run {A B} (m : M A) (k : A -> M B) (w : world) :
  bind m k w = k (fst (m w)) (snd (m w)).
Proof. unfold bind. by destruct (m w). Qed.

Lemma keeps_ret {A} (a : A) : keeps_store (ret a).
Proof. by intros w. Qed.

Lemma keeps_bind {A B} (m : M A) (k : A -> M B) :
  keeps_store m -> (forall a, keeps_store (k a)) -> keeps_store (bind m k).
Proof.
  intros Hm Hk w. rewrite bind_run.
  destruct (Hk (fst (m w)) (snd (m w))) as [-> ->]. apply Hm.
Qed.

Lemma keeps_emit lvl fmt args : keeps_store (emit lvl fmt args).
Proof. by intros w. Qed.

Lemma keeps_ensure_client : keeps_store ensure_client.
Proof. intros w. unfold ensure_client. by destruct (http_client w). Qed.

Lemma keeps_send_request env r : keeps_store (send_request env r).
Proof. by intros w. Qed.

Lemma keeps_path_exists path : keeps_store (path_exists path).
Proof. by intros w. Qed.

Lemma keeps_read_json path : keeps_store (_read_json path).
Proof. by intros w. Qed.

Create HintDb keeps.
#[local] Hint Resolve keeps_ret keeps_emit keeps_ensure_client
  keeps_send_request keeps_path_exists keeps_read_json : keeps.

Ltac keeps_step :=
  match goal with
  | |- keeps_store (bind _ _) => apply keeps_bind; [|intros ?]
  | |- keeps_store (if ?b then _ else _) => destruct b
  | |- keeps_store (match ?x with _ => _ end) => destruct x
  | |- keeps_store _ => solve [eauto with keeps]
  end.

Ltac keeps := repeat keeps_step.

Lemma keeps_load_prompt env : keeps_store (_load_prompt_message env).
Proof. unfold _load_prompt_message. keeps. Qed.

Lemma keeps_load_context env ev : keeps_store (_load_context env ev).
Proof. unfold _load_context. keeps. Qed.

Lemma keeps_load_user_settings env ev : keeps_store (_load_user_settings env ev).
Proof. unfold _load_user_settings. keeps. Qed.

#[local] Hint Resolve keeps_load_prompt keeps_load_context
  keeps_load_user_settings : keeps.

Lemma keeps_get_user_model env ev : keeps_store (_get_user_model env ev).
Proof. unfold _get_user_model. keeps. Qed.

Lemma keeps_build_messages env history um :
  keeps_store (_build_messages env history um).
Proof. unfold _build_messages. keeps. Qed.

Lemma keeps_call_openai env messages model :
  keeps_store (_call_openai env messages model).
Proof. unfold _call_openai, _get_openai_config. keeps. Qed.

Lemma keeps_fetch_image env url : keeps_store (_fetch_image_base64 env url).
Proof. unfold _fetch_image_base64. keeps. Qed.

#[local] Hint Resolve keeps_get_user_model keeps_build_messages
  keeps_call_openai keeps_fetch_image : keeps.

Lemma keeps_build_image_part env seg : keeps_store (_build_image_part env seg).
Proof. unfold _build_image_part. keeps. Qed.

#[local] Hint Resolve keeps_build_image_part : keeps.

Lemma keeps_scan_segments env msg parts text_buffer :
  keeps_store (scan_segments env msg parts text_buffer).
Proof.
  revert parts text_buffer.
  induction msg as [|seg rest IH]; intros parts text_buffer; simpl.
  - keeps.
  - destruct (str_eqb _ _); [apply IH|].
    destruct (negb _); [apply IH|].
    destruct (_flush_text parts text_buffer) as [parts' buffer'].
    apply keeps_bind; [keeps|]. intros [p|]; apply IH.
Qed.

#[local] Hint Resolve keeps_scan_segments : keeps.

Lemma keeps_build_user_message env msg :
  keeps_store (_build_user_message env msg).
Proof.
  unfold _build_user_message, assemble_parts.
  apply keeps_bind; [keeps|].
  intros [|[text|url] [|q parts]]; keeps.
Qed.

#[local] Hint Resolve keeps_build_user_message : keeps.

(** ** The handlers, step by step *)

(** What [_load_context] returns depends on the files only. *)
Lemma load_context_files env ev (w1 w2 : world) :
  files w1 = files w2 ->
  fst (_load_context env ev w1) = fst (_load_context env ev w2).
Proof.
  intros H. unfold _load_context. rewrite !bind_run.
  unfold path_exists, _read_json. simpl. rewrite H.
  destruct (negb _); [done|]. rewrite !bind_run. simpl. rewrite H.
  destruct (files w2 !! _) as [[[]|]|]; done.
Qed.

Lemma load_user_settings_files env ev (w1 w2 : world) :
  files w1 = files w2 ->
  fst (_load_user_settings env ev w1) = fst (_load_user_settings env ev w2).
Proof.
  intros H. unfold _load_user_settings. rewrite !bind_run.
  unfold path_exists, _read_json. simpl. rewrite H.
  destruct (negb _); [done|]. rewrite !bind_run. simpl. rewrite H.
  destruct (files w2 !! _) as [[[]|]|]; done.
Qed.

Lemma load_context_value env ev (w : world) :
  fst (_load_context env ev w)
  = match files w !! _get_context_path env ev with
    | Some (FJson (JArr l)) => l
    | _ => []
    end.
Proof.
  unfold _load_context. rewrite !bind_run.
  unfold path_exists, _read_json. cbn [fst snd].
  destruct (files w !! _get_context_path env ev) as [[[]|]|] eqn:Hf;
    try (rewrite bool_decide_eq_true_2 by eauto; cbn [negb];
         rewrite bind_run; cbn [fst snd]; rewrite Hf; reflexivity).
  rewrite bool_decide_eq_false_2 by (intros [? ?]; discriminate). reflexivity.
Qed.

Lemma load_user_settings_value env ev (w : world) :
  fst (_load_user_settings env ev w)
  = match files w !! _get_user_settings_path env ev with
    | Some (FJson (JObj d)) => d
    | _ => []
    end.
Proof.
  unfold _load_user_settings. rewrite !bind_run.
  unfold path_exists, _read_json. cbn [fst snd].
  destruct (files w !! _get_user_settings_path env ev) as [[[]|]|] eqn:Hf;
    try (rewrite bool_decide_eq_true_2 by eauto; cbn [negb];
         rewrite bind_run; cbn [fst snd]; rewrite Hf; reflexivity).
  rewrite bool_decide_eq_false_2 by (intros [? ?]; discriminate). reflexivity.
Qed.

Lemma get_user_model_value env ev (w : world) :
  fst (_get_user_model env ev w)
  = match dict_get (py "model") (fst (_load_user_settings env ev w)) with
    | Some (JStr model) =>
        if nonempty model then Some model else openai_model env
    | _ => openai_model env
    end.
Proof.
  unfold _get_user_model. rewrite bind_run.
  destruct (dict_get _ _) as [[]|]; try reflexivity.
  by destruct (nonempty s).
Qed.

Lemma get_user_model_files env ev (w1 w2 : world) :
  files w1 = files w2 ->
  fst (_get_user_model env ev w1) = fst (_get_user_model env ev w2).
Proof.
  intros H.
  by rewrite !get_user_model_value, (load_user_settings_files env ev w1 w2 H).
Qed.

Lemma build_messages_value env history um (w : world) :
  fst (_build_messages env history um w)
  = from_option (fun p => [p]) [] (fst (_load_prompt_message env w))
    ++ history ++ [um].
Proof.
  unfold _build_messages. rewrite bind_run. cbn [ret fst].
  destruct (fst (_load_prompt_message env w));
    cbn [from_option]; by rewrite <- app_assoc.
Qed.

Lemma load_prompt_value env (w w' : world) :
  fst (_load_prompt_message env w) = fst (_load_prompt_message env w').
Proof.
  unfold _load_prompt_message. destruct (prompt env); try reflexivity.
  by destruct (negb _).
Qed.

(** The functions that send no request. *)

Lemma keeps_net_ret {A} (a : A) : keeps_net (ret a).
Proof. by intros w. Qed.

Lemma keeps_net_bind {A B} (m : M A) (k : A -> M B) :
  keeps_net m -> (forall a, keeps_net (k a)) -> keeps_net (bind m k).
Proof. intros Hm Hk w. rewrite bind_run, Hk. apply Hm. Qed.

Lemma keeps_net_emit lvl fmt args : keeps_net (emit lvl fmt args).
Proof. by intros w. Qed.

Lemma keeps_net_finish text : keeps_net (finish text).
Proof. by intros w. Qed.

Lemma keeps_net_ensure_client : keeps_net ensure_client.
Proof. intros w. unfold ensure_client. by destruct (http_client w). Qed.

Lemma keeps_net_path_exists path : keeps_net (path_exists path).
Proof. by intros w. Qed.

Lemma keeps_net_read_json path : keeps_net (_read_json path).
Proof. by intros w. Qed.

Lemma keeps_net_write_json env path data : keeps_net (_write_json env path data).
Proof.
  intros w. unfold _write_json.
  destruct (negb (writable env path)); [done|]. by destruct (_ && _).
Qed.

Create HintDb keeps_net.
#[local] Hint Resolve keeps_net_ret keeps_net_emit keeps_net_finish
  keeps_net_ensure_client keeps_net_path_exists keeps_net_read_json
  keeps_net_write_json : keeps_net.

Ltac keeps_net_step :=
  match goal with
  | |- keeps_net (bind _ _) => apply keeps_net_bind; [|intros ?]
  | |- keeps_net (if ?b then _ else _) => destruct b
  | |- keeps_net (match ?x with _ => _ end) => destruct x
  | |- keeps_net _ => solve [eauto with keeps_net]
  end.

Ltac keeps_net := repeat keeps_net_step.

Lemma keeps_net_load_prompt env : keeps_net (_load_prompt_message env).
Proof. unfold _load_prompt_message. keeps_net. Qed.

Lemma keeps_net_load_context env ev : keeps_net (_load_context env ev).
Proof. unfold _load_context. keeps_net. Qed.

Lemma keeps_net_load_user_settings env ev :
  keeps_net (_load_user_settings env ev).
Proof. unfold _load_user_settings. keeps_net. Qed.

#[local] Hint Resolve keeps_net_load_prompt keeps_net_load_context
  keeps_net_load_user_settings : keeps_net.

Lemma keeps_net_get_user_model env ev : keeps_net (_get_user_model env ev).
Proof. unfold _get_user_model. keeps_net. Qed.

Lemma keeps_net_build_messages env history um :
  keeps_net (_build_messages env history um).
Proof. unfold _build_messages. keeps_net. Qed.

Lemma keeps_net_save_context env ev messages :
  keeps_net (_save_context env ev messages).
Proof. unfold _save_context. keeps_net. Qed.

Lemma keeps_net_save_user_settings env ev settings :
  keeps_net (_save_user_settings env ev settings).
Proof. unfold _save_user_settings. keeps_net. Qed.

#[local] Hint Resolve keeps_net_save_user_settings : keeps_net.

Lemma keeps_net_set_user_model env ev model :
  keeps_net (_set_user_model env ev model).
Proof. unfold _set_user_model. keeps_net. Qed.

(** The configuration, as the functions come to read it. *)

Lemma config_of_key env :
  falsy_opt (openai_api_key env) = false ->
  exists key base_url model,
    _get_openai_config env = Some (Some key, base_url, model) /\
    openai_api_key env = Some key /\ openai_base_url env = base_url /\
    openai_model env = Some model /\ nonempty key = true.
Proof.
  unfold openai_api_key, openai_base_url, openai_model, _get_openai_config.
  destruct (config_openai_api_key env) as [[key|]|],
           (config_openai_base_url env) as [base_url|],
           (config_openai_model env) as [model|];
    cbn [mbind option_bind falsy_opt]; try discriminate.
  intros H. exists key, base_url, model. repeat split.
  by destruct (nonempty key).
Qed.

Lemma config_without_key env :
  falsy_opt (openai_api_key env) = true ->
  _get_openai_config env = None
  \/ exists api_key base_url model,
       _get_openai_config env = Some (api_key, base_url, model)
       /\ falsy_opt api_key = true.
Proof.
  unfold openai_api_key.
  destruct (_get_openai_config env) as [[[api_key base_url] model]|];
    [|by left].
  intros H. right. by exists api_key, base_url, model.
Qed.

(** A save, outcome by outcome. *)
Lemma save_context_run env ev messages (w : world) :
  let path := _get_context_path env ev in
  let res := _save_context env ev messages w in
  sent (snd res) = sent w /\ net (snd res) = net w /\
  fst res = (if makedirs_ok env (CONTEXT_DIR env) then Ended else Escaped) /\
  files (snd res)
  = if makedirs_ok env (CONTEXT_DIR env) && writable env path
    then <[path := if json_encodable (JArr messages) && write_through env path
                   then FJson (JArr messages) else FCorrupt]> (files w)
    else files w.
Proof.
  cbv zeta. unfold _save_context, _write_json.
  destruct (makedirs_ok env (CONTEXT_DIR env)); cbn [negb andb]; [|done].
  rewrite !bind_run.
  destruct (writable env _); cbn [negb]; [|done].
  destruct (json_encodable (JArr messages) && write_through env _); done.
Qed.

Lemma save_user_settings_run env ev settings (w : world) :
  let path := _get_user_settings_path env ev in
  let res := _save_user_settings env ev settings w in
  sent (snd res) = sent w /\ net (snd res) = net w /\
  fst res = (if makedirs_ok env (USER_SETTINGS_DIR env) then Ended else Escaped) /\
  files (snd res)
  = if makedirs_ok env (USER_SETTINGS_DIR env) && writable env path
    then <[path := if json_encodable (JObj settings) && write_through env path
                   then FJson (JObj settings) else FCorrupt]> (files w)
    else files w.
Proof.
  cbv zeta. unfold _save_user_settings, _write_json.
  destruct (makedirs_ok env (USER_SETTINGS_DIR env)); cbn [negb andb]; [|done].
  rewrite !bind_run.
  destruct (writable env _); cbn [negb]; [|done].
  destruct (json_encodable (JObj settings) && write_through env _); done.
Qed.

Lemma set_user_model_run env ev model (w : world) :
  let path := _get_user_settings_path env ev in
  let settings := dict_set (py "model") (JStr model)
                    (fst (_load_user_settings env ev w)) in
  let res := _set_user_model env ev model w in
  sent (snd res) = sent w /\ net (snd res) = net w /\
  fst res = (if makedirs_ok env (USER_SETTINGS_DIR env) then Ended else Escaped) /\
  files (snd res)
  = if makedirs_ok env (USER_SETTINGS_DIR env) && writable env path
    then <[path := if json_encodable (JObj settings) && write_through env path
                   then FJson (JObj settings) else FCorrupt]> (files w)
    else files w.
Proof.
  cbv zeta. unfold _set_user_model. rewrite bind_run.
  destruct (save_user_settings_run env ev
              (dict_set (py "model") (JStr model)
                 (fst (_load_user_settings env ev w)))
              (snd (_load_user_settings env ev w))) as (Hs & Hn & He & Hf).
  destruct (keeps_load_user_settings env ev w) as [Hf0 Hs0].
  rewrite Hs, Hn, He, Hf, Hf0, Hs0, keeps_net_load_user_settings. done.
Qed.

(** The completion call reads the world through the requests sent so
    far only. *)
Lemma call_openai_net_only env messages model (w1 w2 : world) :
  net w1 = net w2 ->
  fst (_call_openai env messages model w1)
  = fst (_call_openai env messages model w2).
Proof.
  intros H. unfold _call_openai.
  destruct (_get_openai_config env) as [[[api_key base_url] m]|]; [|done].
  destruct (falsy_opt api_key); [done|]. rewrite !bind_run.
  unfold send_request at 1 3. cbn [fst snd].
  rewrite !keeps_net_ensure_client, H.
  destruct (remote env (net w2) _) as [|resp]; [by rewrite !bind_run|].
  destruct (is_success resp); [|by rewrite !bind_run].
  destruct (_ ≫= _); [done|by rewrite !bind_run].
Qed.

Lemma chat_handler_converse env ev args :
  chat_handler env ev args
  = (user_message <- _build_user_message env args;;
     match user_message with
     | None => finish (py "请提供内容。用法: /chat 你好");;; ret Ended
     | Some user_message => converse env ev user_message
     end).
Proof. reflexivity. Qed.

Lemma tome_handler_converse env ev :
  tome_handler env ev
  = (user_message <- _build_user_message env (message ev);;
     match user_message with
     | None => ret Ended
     | Some user_message => converse env ev user_message
     end).
Proof. reflexivity. Qed.

(** One run of the shared part, step by step: the model is read, the
    completion is asked for in a world [w3] that differs from the first
    in its log only, and then, unless an exception has escaped, the
    history is saved when the reply is not empty and the reply is sent. *)
Lemma converse_run env ev um (w : world) :
  let history := fst (_load_context env ev w) in
  let messages :=
    from_option (fun p => [p]) [] (fst (_load_prompt_message env w))
    ++ history ++ [um] in
  exists w3,
    files w3 = files w /\ sent w3 = sent w /\ net w3 = net w /\
    converse env ev um w
    = match fst (_get_user_model env ev w) with
      | None => (Escaped, w3)
      | Some model =>
          let res := _call_openai env messages model w3 in
          match fst res with
          | None => (Escaped, snd res)
          | Some reply =>
              if nonempty reply then
                let saved := _save_context env ev
                               (append_and_trim history um reply) (snd res) in
                match fst saved with
                | Escaped => (Escaped, snd saved)
                | Ended => (Ended, snd (finish reply (snd saved)))
                end
              else (Ended, snd (finish reply (snd res)))
          end
      end.
Proof.
  cbv zeta. unfold converse, bind_raise, and_then. rewrite !bind_run.
  set (history := fst (_load_context env ev w)).
  set (w1 := snd (_load_context env ev w)).
  set (w2 := snd (_build_messages env history um w1)).
  set (w3 := snd (_get_user_model env ev w2)).
  assert (files w2 = files w /\ sent w2 = sent w /\ net w2 = net w)
    as (Hf2 & Hs2 & Hn2).
  { unfold w2. rewrite keeps_net_build_messages.
    destruct (keeps_build_messages env history um w1) as [-> ->].
    unfold w1. rewrite keeps_net_load_context. repeat split;
      apply keeps_load_context. }
  exists w3. split; [|split; [|split]].
  - unfold w3. by destruct (keeps_get_user_model env ev w2) as [-> _].
  - unfold w3. by destruct (keeps_get_user_model env ev w2) as [_ ->].
  - unfold w3. by rewrite keeps_net_get_user_model.
  - rewrite (get_user_model_files env ev w2 w Hf2). fold w3.
    destruct (fst (_get_user_model env ev w)) as [model|]; [|done].
    rewrite build_messages_value, (load_prompt_value env w1 w).
    rewrite bind_run.
    set (res := _call_openai env _ model w3).
    destruct (fst res) as [reply|]; [|reflexivity].
    rewrite bind_run.
    destruct (nonempty reply).
    + set (saved := _save_context env ev _ (snd res)).
      destruct (fst saved); [|reflexivity].
      rewrite bind_run. reflexivity.
    + unfold ret at 1. cbn [fst snd]. rewrite bind_run. reflexivity.
Qed.

(** A handler that has a user turn runs the shared part on it, in the
    world the assembler leaves. *)
Lemma handler_converse env ev args (h : M ending) (w : world) um :
  h = chat_handler env ev args \/ (args = message ev /\ h = tome_handler env ev) ->
  fst (_build_user_message env args w) = Some um ->
  h w = converse env ev um (snd (_build_user_message env args w)).
Proof.
  intros [->|[-> ->]] Hum.
  - by rewrite chat_handler_converse, bind_run, Hum.
  - by rewrite tome_handler_converse, bind_run, Hum.
Qed.

(** The same run seen from the world the handler starts in. *)
Lemma handler_run env ev args (h : M ending) (w : world) um :
  h = chat_handler env ev args \/ (args = message ev /\ h = tome_handler env ev) ->
  fst (_build_user_message env args w) = Some um ->
  let history := fst (_load_context env ev w) in
  let messages :=
    from_option (fun p => [p]) [] (fst (_load_prompt_message env w))
    ++ history ++ [um] in
  exists w3,
    files w3 = files w /\ sent w3 = sent w /\
    net w3 = net (snd (_build_user_message env args w)) /\
    h w
    = match fst (_get_user_model env ev w) with
      | None => (Escaped, w3)
      | Some model =>
          let res := _call_openai env messages model w3 in
          match fst res with
          | None => (Escaped, snd res)
          | Some reply =>
              if nonempty reply then
                let saved := _save_context env ev
                               (append_and_trim history um reply) (snd res) in
                match fst saved with
                | Escaped => (Escaped, snd saved)
                | Ended => (Ended, snd (finish reply (snd saved)))
                end
              else (Ended, snd (finish reply (snd res)))
          end
      end.
Proof.
  intros Hh Hum. cbv zeta.
  rewrite (handler_converse env ev args h w um Hh Hum).
  set (w0 := snd (_build_user_message env args w)).
  destruct (keeps_build_user_message env args w) as [Hf0 Hs0].
  fold w0 in Hf0, Hs0.
  destruct (converse_run env ev um w0) as (w3 & Hf & Hs & Hn & Hrun).
  cbv zeta in Hrun. exists w3.
  rewrite Hf, Hs, Hn, Hf0, Hs0. repeat split.
  rewrite Hrun, (load_prompt_value env w0 w),
    (load_context_files env ev w0 w Hf0),
    (get_user_model_files env ev w0 w Hf0). reflexivity.
Qed.

(** A run that gets a non-empty reply and writes the history in full. *)
Lemma handler_saves env ev args (h : M ending) (w : world) um
    (model reply : str) :
  h = chat_handler env ev args \/ (args = message ev /\ h = tome_handler env ev) ->
  fst (_build_user_message env args w) = Some um ->
  fst (_get_user_model env ev w) = Some model ->
  let history := fst (_load_context env ev w) in
  let messages :=
    from_option (fun p => [p]) [] (fst (_load_prompt_message env w))
    ++ history ++ [um] in
  fst (_call_openai env messages model
         (snd (_build_user_message env args w))) = Some reply ->
  nonempty reply = true ->
  let path := _get_context_path env ev in
  makedirs_ok env (CONTEXT_DIR env) = true ->
  writable env path = true ->
  write_through env path = true ->
  json_encodable (JArr (append_and_trim history um reply)) = true ->
  fst (h w) = Ended /\
  sent (snd (h w)) = sent w ++ [reply] /\
  files (snd (h w))
  = <[path := FJson (JArr (append_and_trim history um reply))]> (files w).
Proof.
  intros Hh Hum Hmodel history messages Hcall Hreply path Hmk Hw Hwt Henc.
  destruct (handler_run env ev args h w um Hh Hum)
    as (w3 & Hf & Hs & Hn & Hrun).
  cbv zeta in Hrun. rewrite Hmodel in Hrun.
  fold history in Hrun. fold messages in Hrun.
  rewrite (call_openai_net_only env messages model w3 _ Hn), Hcall, Hreply
    in Hrun.
  set (w4 := snd (_call_openai env messages model w3)) in *.
  destruct (keeps_call_openai env messages model w3) as [Hf4 Hs4].
  fold w4 in Hf4, Hs4.
  destruct (save_context_run env ev (append_and_trim history um reply) w4)
    as (Hs5 & _ & He5 & Hf5).
  fold path in Hf5. rewrite Hmk in He5.
  rewrite Hmk, Hw, Henc, Hwt in Hf5. cbn [andb] in Hf5.
  rewrite He5 in Hrun.
  rewrite Hrun. unfold finish. cbn [fst snd sent files].
  by rewrite Hs5, Hs4, Hs, Hf5, Hf4, Hf.
Qed.

(** ** The claims about the history *)

(** C1. When a handler has a user turn, the completion call made for it
    returns a non-empty reply and the history document can be written in
    full, the handler ends normally, sends the reply and leaves in the
    history file the last [MAX_CONTEXT_MESSAGES] entries, in their
    order, of the loaded history followed by the user turn and the
    assistant turn: the cut is made on the appended list and its result
    is what is saved. *)
Theorem history_window_kept (env : environment) (ev : event)
    (args : list segment) (h : M ending) (w : world) (um : json)
    (model reply : str) :
  h = chat_handler env ev args \/ (args = message ev /\ h = tome_handler env ev) ->
  fst (_build_user_message env args w) = Some um ->
  fst (_get_user_model env ev w) = Some model ->
  let history := fst (_load_context env ev w) in
  let messages :=
    from_option (fun p => [p]) [] (fst (_load_prompt_message env w))
    ++ history ++ [um] in
  fst (_call_openai env messages model
         (snd (_build_user_message env args w))) = Some reply ->
  nonempty reply = true ->
  let path := _get_context_path env ev in
  makedirs_ok env (CONTEXT_DIR env) = true ->
  writable env path = true ->
  write_through env path = true ->
  json_encodable (JArr (append_and_trim history um reply)) = true ->
  let appended := history ++ [um; assistant_turn reply] in
  exists dropped kept,
    fst (h w) = Ended /\
    sent (snd (h w)) = sent w ++ [reply] /\
    files (snd (h w)) = <[path := FJson (JArr kept)]> (files w) /\
    appended = dropped ++ kept /\
    length kept = Nat.min MAX_CONTEXT_MESSAGES (length appended) /\
    (length kept <= MAX_CONTEXT_MESSAGES)%nat.
Proof.
  intros Hh Hum Hmodel history messages Hcall Hreply path Hmk Hw Hwt Henc
         appended.
  destruct (handler_saves env ev args h w um model reply
              Hh Hum Hmodel Hcall Hreply Hmk Hw Hwt Henc) as (He & Hs & Hf).
  exists (take (length appended - MAX_CONTEXT_MESSAGES) appended),
         (append_and_trim history um reply).
  split; [done|]. split; [done|]. split; [done|].
  split; [apply append_and_trim_suffix|].
  rewrite append_and_trim_length. unfold appended.
  rewrite length_app. cbn [length]. lia.
Qed.

Lemma history_window_kept_witness :
  length Sample.long_history = 20%nat /\
  exists dropped kept,
    fst (chat_handler Sample.env_ok Sample.alice Sample.hello
           Sample.busy_world) = Ended /\
    sent (snd (chat_handler Sample.env_ok Sample.alice Sample.hello
                 Sample.busy_world))
    = sent Sample.busy_world ++ [py "Hi there"] /\
    files (snd (chat_handler Sample.env_ok Sample.alice Sample.hello
                  Sample.busy_world))
    = <[_get_context_path Sample.env_ok Sample.alice := FJson (JArr kept)]>
        (files Sample.busy_world) /\
    Sample.long_history
      ++ [user_turn (JStr (py "hello")); assistant_turn (py "Hi there")]
    = dropped ++ kept /\
    length kept = Nat.min MAX_CONTEXT_MESSAGES 22 /\
    (length kept <= MAX_CONTEXT_MESSAGES)%nat.
Proof.
  split; [reflexivity|].
  apply (history_window_kept Sample.env_ok Sample.alice Sample.hello
           (chat_handler Sample.env_ok Sample.alice Sample.hello)
           Sample.busy_world (user_turn (JStr (py "hello")))
           (py "gpt-4o-mini") (py "Hi there")).
  - left. reflexivity.
  - vm_compute. reflexivity.
  - vm_compute. reflexivity.
  - vm_compute. reflexivity.
  - reflexivity.
  - reflexivity.
  - reflexivity.
  - reflexivity.
  - vm_compute. reflexivity.
Defined.



(** ** The completion client *)

Lemma completion_request_post env messages model :
  req_method (completion_request env messages model) = POST.
Proof. reflexivity. Qed.

Lemma call_openai_unset env messages model (w : world) :
  _get_openai_config env = None ->
  _call_openai env messages model w = (None, w).
Proof. intros H. unfold _call_openai. by rewrite H. Qed.

Lemma call_openai_no_key env messages model (w : world) :
  is_Some (_get_openai_config env) ->
  falsy_opt (openai_api_key env) = true ->
  _call_openai env messages model w
  = (Some (py "缺少 OPENAI_API_KEY 配置。"), w).
Proof.
  intros [[[api_key base_url] m] Hc] H.
  unfold openai_api_key in H. rewrite Hc in H.
  unfold _call_openai. rewrite Hc. cbv beta iota zeta. by rewrite H.
Qed.

(** With a key, the call sends the one request and branches on the
    answer. *)
Lemma call_openai_with_key env messages model (w : world) :
  falsy_opt (openai_api_key env) = false ->
  let r := remote env (net w) (completion_request env messages model) in
  let failed := py "请求 OpenAI 失败，请稍后再试。" in
  fst (_call_openai env messages model w)
  = Some match r with
         | Raised => failed
         | Responded resp =>
             if is_success resp then
               default failed (resp_json resp ≫= reply_content)
             else py "上游返回错误 " ++ str_of_int (status_code resp)
                  ++ py "，请稍后再试。"
         end.
Proof.
  intros H.
  destruct (config_of_key env H) as (key & base_url & m & Hc & Hk & _ & _ & Hne).
  unfold _call_openai. rewrite Hc. cbv beta iota zeta.
  assert (falsy_opt (Some key) = false) as -> by (cbn; by rewrite Hne).
  rewrite !bind_run.
  unfold send_request at 1 2. cbn [fst snd].
  rewrite keeps_net_ensure_client.
  destruct (remote env (net w) _) as [|resp]; [by rewrite bind_run|].
  destruct (is_success resp); [|by rewrite bind_run].
  destruct (_ ≫= _); cbv beta iota delta [from_option id];
    [reflexivity|by rewrite bind_run].
Qed.

Lemma failure_notice_nonempty (s : str) :
  is_failure_notice s -> nonempty s = true.
Proof. intros [->|[->|[status ->]]]; reflexivity. Qed.

(** The notices encode: they are made of fixed texts and of the digits
    of a status code. *)

Lemma utf8_decode_ascii (bs : list N) :
  Forall (fun b => b < 128) bs -> utf8_decode bs = bs.
Proof.
  induction 1 as [|b bs Hb _ IH]; [done|].
  cbn [utf8_decode]. apply N.ltb_lt in Hb. by rewrite Hb, IH.
Qed.

Lemma ascii_encodable (bs : list N) :
  Forall (fun b => b < 128) bs -> str_encodable bs = true.
Proof.
  induction 1 as [|b bs Hb _ IH]; [done|].
  unfold str_encodable in *. cbn [forallb]. rewrite IH, andb_true_r.
  apply negb_true_iff, andb_false_iff. left. apply N.leb_gt. lia.
Qed.

Lemma pretty_N_char_ascii (x : N) : N_of_ascii (pretty_N_char x) < 128.
Proof. unfold pretty_N_char. repeat case_match; by vm_compute. Qed.

Lemma pretty_N_go_ascii (x : N) (s : string) :
  Forall (fun a => N_of_ascii a < 128) (list_ascii_of_string s) ->
  Forall (fun a => N_of_ascii a < 128) (list_ascii_of_string (pretty_N_go x s)).
Proof.
  revert s. induction (N.lt_wf_0 x) as [x _ IH]. intros s Hs.
  assert (x = 0 \/ 0 < x) as [->|Hx] by lia.
  - by rewrite pretty_N_go_0.
  - rewrite pretty_N_go_step by done. apply IH.
    + by apply N.div_lt.
    + cbn [list_ascii_of_string]. constructor; [|done].
      apply pretty_N_char_ascii.
Qed.

Lemma str_of_int_encodable (z : Z) : str_encodable (str_of_int z) = true.
Proof.
  assert (forall p : positive,
            Forall (fun a => N_of_ascii a < 128)
                   (list_ascii_of_string (pretty p))) as Hpos.
  { intros p. unfold pretty, pretty_positive, pretty, pretty_N.
    destruct (decide _); [discriminate|].
    apply pretty_N_go_ascii. constructor. }
  assert (Forall (fun a => N_of_ascii a < 128)
                 (list_ascii_of_string (pretty z))) as Hz.
  { destruct z as [|p|p].
    - repeat constructor.
    - apply Hpos.
    - change (pretty (Z.neg p)) with (String "-" (pretty p)).
      cbn [list_ascii_of_string]. constructor; [by vm_compute|apply Hpos]. }
  unfold str_of_int, py.
  assert (Forall (fun b => b < 128)
                 (N_of_ascii <$> list_ascii_of_string (pretty z))) as Hb
    by (by apply Forall_fmap).
  rewrite (utf8_decode_ascii _ Hb). by apply ascii_encodable.
Qed.

Lemma failure_notice_encodable (s : str) :
  is_failure_notice s -> str_encodable s = true.
Proof.
  intros [->|[->|[status ->]]]; [by vm_compute|by vm_compute|].
  unfold str_encodable. rewrite !forallb_app.
  fold (str_encodable (str_of_int status)). rewrite str_of_int_encodable.
  apply andb_true_iff. split; [by vm_compute|].
  apply andb_true_iff. split; [done|by vm_compute].
Qed.

Lemma assistant_turn_encodable (reply : str) :
  json_encodable (assistant_turn reply) = str_encodable reply.
Proof.
  unfold assistant_turn. cbn [json_encodable forallb].
  assert (str_encodable (py "role") = true) as -> by (by vm_compute).
  assert (str_encodable (py "assistant") = true) as -> by (by vm_compute).
  assert (str_encodable (py "content") = true) as -> by (by vm_compute).
  cbn [andb]. by rewrite andb_true_r.
Qed.

(** What is kept of an encodable history encodes. *)
Lemma append_and_trim_encodable history um (reply : str) :
  json_encodable (JArr (history ++ [um])) = true ->
  str_encodable reply = true ->
  json_encodable (JArr (append_and_trim history um reply)) = true.
Proof.
  cbn [json_encodable]. intros Hh Hr.
  assert (forallb json_encodable (history ++ [um; assistant_turn reply]) = true)
    as Hall.
  { change [um; assistant_turn reply] with ([um] ++ [assistant_turn reply]).
    rewrite app_assoc, forallb_app, Hh. cbn [forallb andb].
    by rewrite assistant_turn_encodable, Hr. }
  rewrite (append_and_trim_suffix history um reply), forallb_app in Hall.
  by apply andb_true_iff in Hall as [_ ?].
Qed.

(** A call that fails with the settings in place returns one of the
    notices. *)
Lemma call_openai_fails env messages model (w : world) :
  is_Some (_get_openai_config env) ->
  falsy_opt (openai_api_key env) = true
  \/ failed_result (remote env (net w) (completion_request env messages model))
     = true ->
  exists notice,
    fst (_call_openai env messages model w) = Some notice /\
    is_failure_notice notice.
Proof.
  intros Hc H.
  destruct (falsy_opt (openai_api_key env)) eqn:Hkey.
  { rewrite call_openai_no_key by done. eexists. split; [done|]. by left. }
  destruct H as [H|H]; [done|].
  rewrite call_openai_with_key by done. cbv zeta. eexists. split; [done|].
  destruct (remote env (net w) _) as [|resp]; [right; by left|].
  cbn [failed_result] in H. destruct (is_success resp); cbn [negb orb] in H.
  - destruct (resp_json resp ≫= reply_content); [done|]. right. by left.
  - right. right. by eexists.
Qed.

(** C5. When the configuration has no [openai_api_key] setting, the
    completion call does not reach its test of the key: the read of the
    setting raises, so the call returns no notice (and it sends no
    request and leaves the world as it was). *)
Theorem unset_key_raises (env : environment) (messages : list json)
    (model : str) (w : world) :
  config_openai_api_key env = None ->
  fst (_call_openai env messages model w) = None /\
  fst (_call_openai env messages model w)
  <> Some (py "缺少 OPENAI_API_KEY 配置。") /\
  snd (_call_openai env messages model w) = w.
Proof.
  intros H. rewrite call_openai_unset; [done|].
  unfold _get_openai_config. by rewrite H.
Qed.

Lemma unset_key_raises_witness :
  fst (_call_openai Sample.env_unset_key [user_turn (JStr (py "hello"))]
         (py "gpt-4o-mini") Sample.empty_world) = None /\
  fst (_call_openai Sample.env_unset_key [user_turn (JStr (py "hello"))]
         (py "gpt-4o-mini") Sample.empty_world)
  <> Some (py "缺少 OPENAI_API_KEY 配置。") /\
  snd (_call_openai Sample.env_unset_key [user_turn (JStr (py "hello"))]
         (py "gpt-4o-mini") Sample.empty_world) = Sample.empty_world.
Proof.
  apply (unset_key_raises Sample.env_unset_key
           [user_turn (JStr (py "hello"))] (py "gpt-4o-mini")
           Sample.empty_world).
  reflexivity.
Defined.

(** C2, as the code has it. On a status outside 2xx the completion call
    returns the notice built from the status code alone, so that the
    status code is shown and nothing of the response body is; the call
    itself sends nothing to the chat. *)
Theorem upstream_status_notice (env : environment) (messages : list json)
    (model : str) (w : world) (resp : response) :
  falsy_opt (openai_api_key env) = false ->
  remote env (net w) (completion_request env messages model) = Responded resp ->
  is_success resp = false ->
  fst (_call_openai env messages model w)
  = Some (py "上游返回错误 " ++ str_of_int (status_code resp)
          ++ py "，请稍后再试。") /\
  sent (snd (_call_openai env messages model w)) = sent w.
Proof.
  intros Hkey Hresp Hstatus. split.
  - rewrite call_openai_with_key by done. cbv zeta. by rewrite Hresp, Hstatus.
  - apply keeps_call_openai.
Qed.

Lemma upstream_status_notice_witness :
  fst (_call_openai Sample.env_500 [] (py "gpt-4o-mini") Sample.empty_world)
  = Some (py "上游返回错误 " ++ str_of_int 500 ++ py "，请稍后再试。") /\
  sent (snd (_call_openai Sample.env_500 [] (py "gpt-4o-mini")
               Sample.empty_world)) = sent Sample.empty_world.
Proof.
  apply (upstream_status_notice Sample.env_500 [] (py "gpt-4o-mini")
           Sample.empty_world (Sample.error_response 500 Sample.long_body)).
  - reflexivity.
  - reflexivity.
  - reflexivity.
Defined.

(** C2, as the specification words it, fails for a 500 answer: the
    notice the call returns, which the handler sends to the chat, shows
    the status code. *)
Lemma upstream_notice_shows_status :
  let res := _call_openai Sample.env_500 [] (py "gpt-4o-mini")
               Sample.empty_world in
  ~ (forall notice, fst res = Some notice ->
                    contains (str_of_int 500) notice = false).
Proof.
  intros res Hhidden.
  assert (exists notice, fst res = Some notice
                         /\ contains (str_of_int 500) notice = true)
    as (notice & Hn & Hc) by (eexists; split; vm_compute; reflexivity).
  specialize (Hhidden notice Hn). congruence.
Qed.

(** C9, as the code has it. With the three settings in place, when the
    completion call fails (the key is [None] or empty, or the request
    ends in a transport error, a status outside 2xx or a body without a
    reply), a handler that has a user turn ends normally and sends one
    of the three notices, which is a non-empty string; when the history
    document is written in full, the history file ends with the user
    turn followed by an assistant turn holding that notice. *)
Theorem failure_notice_persisted (env : environment) (ev : event)
    (args : list segment) (h : M ending) (w : world) (um : json)
    (model : str) :
  h = chat_handler env ev args \/ (args = message ev /\ h = tome_handler env ev) ->
  fst (_build_user_message env args w) = Some um ->
  is_Some (_get_openai_config env) ->
  fst (_get_user_model env ev w) = Some model ->
  let history := fst (_load_context env ev w) in
  let messages :=
    from_option (fun p => [p]) [] (fst (_load_prompt_message env w))
    ++ history ++ [um] in
  falsy_opt (openai_api_key env) = true
  \/ failed_result
       (remote env (net (snd (_build_user_message env args w)))
          (completion_request env messages model)) = true ->
  let path := _get_context_path env ev in
  makedirs_ok env (CONTEXT_DIR env) = true ->
  writable env path = true ->
  write_through env path = true ->
  json_encodable (JArr (history ++ [um])) = true ->
  exists notice older,
    is_failure_notice notice /\
    nonempty notice = true /\
    fst (h w) = Ended /\
    sent (snd (h w)) = sent w ++ [notice] /\
    files (snd (h w))
    = <[path := FJson (JArr (older ++ [um; assistant_turn notice]))]> (files w).
Proof.
  intros Hh Hum Hc Hmodel history messages Hfail path Hmk Hw Hwt Henc.
  destruct (call_openai_fails env messages model _ Hc Hfail)
    as (notice & Hcall & Hnotice).
  pose proof (failure_notice_nonempty notice Hnotice) as Hne.
  pose proof (append_and_trim_encodable history um notice Henc
                (failure_notice_encodable notice Hnotice)) as Hdoc.
  destruct (handler_saves env ev args h w um model notice
              Hh Hum Hmodel Hcall Hne Hmk Hw Hwt Hdoc) as (He & Hs & Hf).
  destruct (append_and_trim_newest history um notice) as [older Holder].
  exists notice, older. fold history in Hf. by rewrite <- Holder.
Qed.

Lemma failure_notice_persisted_witness :
  exists notice older,
    is_failure_notice notice /\
    nonempty notice = true /\
    fst (chat_handler Sample.env_500 Sample.alice Sample.hello
           Sample.empty_world) = Ended /\
    sent (snd (chat_handler Sample.env_500 Sample.alice Sample.hello
                 Sample.empty_world)) = sent Sample.empty_world ++ [notice] /\
    files (snd (chat_handler Sample.env_500 Sample.alice Sample.hello
                  Sample.empty_world))
    = <[_get_context_path Sample.env_500 Sample.alice :=
          FJson (JArr (older ++ [user_turn (JStr (py "hello"));
                                 assistant_turn notice]))]>
        (files Sample.empty_world).
Proof.
  apply (failure_notice_persisted Sample.env_500 Sample.alice Sample.hello
           (chat_handler Sample.env_500 Sample.alice Sample.hello)
           Sample.empty_world (user_turn (JStr (py "hello")))
           (py "gpt-4o-mini")).
  - left. reflexivity.
  - vm_compute. reflexivity.
  - vm_compute. eexists. reflexivity.
  - vm_compute. reflexivity.
  - right. reflexivity.
  - reflexivity.
  - reflexivity.
  - reflexivity.
  - vm_compute. reflexivity.
Defined.

(** C9, as the specification words it, fails when the user turn holds
    half an emoji and the provider answers 500: the handler sends the
    notice, the history document does not encode, and the file is left
    cut off, with neither turn in it. *)
Lemma failure_notice_not_persisted :
  let h := chat_handler Sample.env_500 Sample.alice Sample.half_emoji in
  let um := user_turn (JStr (py "hi " ++ [55357])) in
  let path := _get_context_path Sample.env_500 Sample.alice in
  fst (_build_user_message Sample.env_500 Sample.half_emoji Sample.empty_world)
  = Some um /\
  (exists notice, is_failure_notice notice /\
                  sent (snd (h Sample.empty_world)) = [notice]) /\
  ~ (exists notice older,
       files (snd (h Sample.empty_world)) !! path
       = Some (FJson (JArr (older ++ [um; assistant_turn notice])))).
Proof.
  intros h um path. split; [vm_compute; reflexivity|]. split.
  - exists (py "上游返回错误 " ++ str_of_int 500 ++ py "，请稍后再试。").
    split; [right; right; by eexists|]. vm_compute. reflexivity.
  - assert (files (snd (h Sample.empty_world)) !! path = Some FCorrupt) as ->
      by (vm_compute; reflexivity).
    intros (notice & older & H). discriminate.
Qed.

(** ** The model directory *)

Lemma elem_of_decide (x : str) (l : list str) :
  x ∈ l <-> bool_decide (x ∈ l) = true.
Proof. symmetry. apply bool_decide_eq_true. Qed.

(** C8, as the code has it. The tags depend on the identifier alone and
    are read off its lower-cased form: the text tag is always there, the
    vision tag is there exactly when the lower-cased identifier contains
    "vision" or "gpt-4o", the reasoning tag exactly when it starts with
    "o1" or contains "reason"; the three identifiers of the specification
    get the tags it lists. *)
Theorem features_of_lowered_identifier (model_id : str) :
  let lowered := lower model_id in
  let features := _infer_model_features model_id in
  py "文本" ∈ features /\
  (py "视觉" ∈ features <->
     contains (py "vision") lowered = true
     \/ contains (py "gpt-4o") lowered = true) /\
  (py "思考" ∈ features <->
     startswith (py "o1") lowered = true
     \/ contains (py "reason") lowered = true) /\
  _infer_model_features (py "gpt-4o-mini") = [py "文本"; py "视觉"] /\
  _infer_model_features (py "o1-preview") = [py "文本"; py "思考"] /\
  _infer_model_features (py "gpt-3.5-turbo") = [py "文本"].
Proof.
  intros lowered features. unfold features, _infer_model_features.
  fold lowered.
  destruct (contains (py "vision") lowered),
           (contains (py "gpt-4o") lowered),
           (startswith (py "o1") lowered),
           (contains (py "reason") lowered);
    cbv beta iota zeta delta [orb];
    repeat split;
    first [ vm_compute; reflexivity
          | apply elem_of_decide; vm_compute; reflexivity
          | intros _; apply elem_of_decide; vm_compute; reflexivity
          | intros _; tauto
          | intros H; apply elem_of_decide in H; vm_compute in H;
            discriminate H
          | intros [H|H]; discriminate H ].
Qed.

(** C8, as the specification words it, fails on an identifier in upper
    case: "GPT-4O" gets the vision tag and contains neither "vision" nor
    "gpt-4o". *)
Lemma vision_tag_ignores_case :
  ~ (py "视觉" ∈ _infer_model_features (py "GPT-4O") <->
       contains (py "vision") (py "GPT-4O") = true
       \/ contains (py "gpt-4o") (py "GPT-4O") = true).
Proof.
  intros [H _].
  assert (py "视觉" ∈ _infer_model_features (py "GPT-4O")) as Hin.
  { apply elem_of_decide. vm_compute. reflexivity. }
  destruct (H Hin) as [Hc|Hc]; vm_compute in Hc; discriminate Hc.
Qed.

(** ** The user settings *)

Section Dict.

Context {V : Type}.

Lemma dict_get_set_eq (k : str) (v : V) (d : dict V) :
  dict_get k (dict_set k v d) = Some v.
Proof.
  induction d as [|[k' v'] d IH]; simpl; unfold str_eqb.
  - by rewrite bool_decide_eq_true_2.
  - case_bool_decide as Hk; simpl; unfold str_eqb.
    + by rewrite bool_decide_eq_true_2.
    + by rewrite bool_decide_eq_false_2.
Qed.

Lemma dict_get_set_ne (k k' : str) (v : V) (d : dict V) :
  k' <> k -> dict_get k' (dict_set k v d) = dict_get k' d.
Proof.
  intros Hne. induction d as [|[k0 v0] d IH]; simpl; unfold str_eqb.
  - by rewrite bool_decide_eq_false_2.
  - case_bool_decide as Hk; simpl; unfold str_eqb.
    + subst k0. by rewrite !bool_decide_eq_false_2.
    + case_bool_decide; [done|]. apply IH.
Qed.

Lemma dict_set_others (k : str) (v : V) (d : dict V) :
  filter (fun kv => fst kv <> k) (dict_set k v d)
  = filter (fun kv => fst kv <> k) d.
Proof.
  induction d as [|[k0 v0] d IH]; cbn [dict_set]; unfold str_eqb.
  - by rewrite filter_cons_False by (simpl; tauto).
  - case_bool_decide as Hk.
    + subst k0. by rewrite !filter_cons_False by (simpl; tauto).
    + rewrite !filter_cons_True by done. by rewrite IH.
Qed.

End Dict.

(** C10, as the code has it. When the settings document is written in
    full (the directory can be made, the file can be opened, every
    string of the document encodes and the file takes the whole text),
    [_set_user_model] leaves in the file the loaded settings with the
    "model" field set: every other field reads as before, and the
    entries under other keys are the same, in the same order. The loaded
    settings are the stored document when that is a dictionary. No other
    file changes. *)
Theorem set_user_model_keeps_other_fields (env : environment) (ev : event)
    (model : str) (w : world) :
  let path := _get_user_settings_path env ev in
  let loaded := fst (_load_user_settings env ev w) in
  makedirs_ok env (USER_SETTINGS_DIR env) = true ->
  writable env path = true ->
  write_through env path = true ->
  json_encodable (JObj (dict_set (py "model") (JStr model) loaded)) = true ->
  exists saved,
    fst (_set_user_model env ev model w) = Ended /\
    files (snd (_set_user_model env ev model w))
    = <[path := FJson (JObj saved)]> (files w) /\
    dict_get (py "model") saved = Some (JStr model) /\
    (forall k, k <> py "model" -> dict_get k saved = dict_get k loaded) /\
    filter (fun kv => fst kv <> py "model") saved
    = filter (fun kv => fst kv <> py "model") loaded /\
    (forall d, files w !! path = Some (FJson (JObj d)) -> loaded = d).
Proof.
  intros path loaded Hmk Hw Hwt Henc.
  exists (dict_set (py "model") (JStr model) loaded).
  destruct (set_user_model_run env ev model w) as (_ & _ & He & Hf).
  fold path loaded in Hf.
  rewrite Hmk in He. rewrite Hmk, Hw, Henc, Hwt in Hf. cbn [andb] in Hf.
  split; [done|]. split; [done|].
  split; [apply dict_get_set_eq|].
  split; [intros k Hk; by apply dict_get_set_ne|].
  split; [apply dict_set_others|].
  intros d Hd. unfold loaded. rewrite load_user_settings_value.
  fold path. by rewrite Hd.
Qed.

Lemma set_user_model_keeps_other_fields_witness :
  exists saved,
    fst (_set_user_model Sample.env_ok Sample.alice (py "o1-preview")
           Sample.settings_world) = Ended /\
    files (snd (_set_user_model Sample.env_ok Sample.alice (py "o1-preview")
                  Sample.settings_world))
    = <[_get_user_settings_path Sample.env_ok Sample.alice
        := FJson (JObj saved)]> (files Sample.settings_world) /\
    dict_get (py "model") saved = Some (JStr (py "o1-preview")) /\
    (forall k, k <> py "model" ->
               dict_get k saved = dict_get k Sample.alice_settings) /\
    filter (fun kv => fst kv <> py "model") saved
    = filter (fun kv => fst kv <> py "model") Sample.alice_settings /\
    (forall d, files Sample.settings_world
                 !! _get_user_settings_path Sample.env_ok Sample.alice
               = Some (FJson (JObj d)) ->
               Sample.alice_settings = d).
Proof.
  apply (set_user_model_keeps_other_fields Sample.env_ok Sample.alice
           (py "o1-preview") Sample.settings_world).
  - reflexivity.
  - reflexivity.
  - reflexivity.
  - vm_compute. reflexivity.
Defined.

(** C10, as the specification words it, fails for a model name that ends
    in half an emoji: the settings file is opened, the document does not
    encode, and the file is left cut off; the "lang" field that was
    stored is in no saved document, and the next load finds no field. *)
Lemma cut_model_name_loses_fields :
  let path := _get_user_settings_path Sample.env_ok Sample.alice in
  let loaded :=
    fst (_load_user_settings Sample.env_ok Sample.alice
           Sample.settings_world) in
  let w' :=
    snd (_set_user_model Sample.env_ok Sample.alice Sample.cut_emoji
           Sample.settings_world) in
  dict_get (py "lang") loaded = Some (JStr (py "zh")) /\
  files w' !! path = Some FCorrupt /\
  ~ (exists saved,
       files w' !! path = Some (FJson (JObj saved)) /\
       forall k, k <> py "model" -> dict_get k saved = dict_get k loaded) /\
  dict_get (py "lang") (fst (_load_user_settings Sample.env_ok Sample.alice w'))
  = None.
Proof.
  intros path loaded w'.
  assert (files w' !! path = Some FCorrupt) as Hcut
    by (vm_compute; reflexivity).
  split; [vm_compute; reflexivity|]. split; [exact Hcut|]. split.
  - intros (saved & Hsaved & _). rewrite Hcut in Hsaved. discriminate.
  - vm_compute. reflexivity.
Qed.

(** ** The message assembler *)

Lemma b64_char_not_colon (i : N) : b64_char i <> 58.
Proof.
  unfold b64_char.
  repeat (case N.ltb_spec; intros ?); try (case N.eqb_spec; intros ?); lia.
Qed.

Lemma b64encode_no_colon (bs : list N) :
  Forall (fun c => c <> 58) (b64encode bs).
Proof.
  assert (forall (n : nat) (l : list N), (length l <= n)%nat ->
            Forall (fun c => c <> 58) (b64encode l)) as H.
  { induction n as [|n IH]; intros [|a [|b [|c rest]]] Hlen;
      cbn [length] in Hlen; cbn [b64encode];
      repeat (apply Forall_cons; split);
      try apply Forall_nil; try apply b64_char_not_colon; try lia.
    apply IH. lia. }
  by apply (H (length bs)).
Qed.

Lemma b64encode_not_data_uri (bs : list N) :
  startswith (py "data:image/") (b64encode bs) = false.
Proof.
  destruct (startswith _ _) eqn:H; [|done].
  apply startswith_app in H as [t Ht].
  pose proof (b64encode_no_colon bs) as Hall. rewrite Ht in Hall.
  apply Forall_app in Hall as [Hall _].
  rewrite Forall_forall in Hall. exfalso. apply (Hall 58); [|done].
  apply (list_elem_of_lookup_2 _ 4). reflexivity.
Qed.

Lemma startswith_data (a : str) :
  startswith (py "data:") (py "data:" ++ a) = true.
Proof. apply startswith_app. by exists a. Qed.

Lemma data_image_is_data (s : str) :
  startswith (py "data:image/") s = true -> startswith (py "data:") s = true.
Proof.
  rewrite !startswith_app. intros [t ->]. exists (py "image/" ++ t).
  reflexivity.
Qed.

Lemma resolved_data_uri env seg url :
  resolved_from env seg url -> startswith (py "data:") url = true.
Proof.
  intros [[_ [[H ->]| ->]]|(_ & _ & past & resp & _ & _ & ->)].
  - by apply data_image_is_data.
  - by apply startswith_data.
  - by apply startswith_data.
Qed.

Lemma fetch_image_spec env url (w : world) enc mime :
  fst (_fetch_image_base64 env url w) = Some (enc, mime) ->
  exists past resp,
    remote env past (image_request url) = Responded resp /\
    is_success resp = true /\
    enc = b64encode (resp_content resp) /\
    mime = (let content_type :=
              strip (before_char 59 (default [] (resp_content_type resp))) in
            if nonempty content_type then Some content_type else None).
Proof.
  unfold _fetch_image_base64. rewrite !bind_run.
  unfold send_request at 1 2. cbn [fst snd].
  fold (image_request url).
  destruct (remote env _ (image_request url)) as [|resp] eqn:Hr; [done|].
  destruct (is_success resp) eqn:Hs; [|done].
  intros [= <- <-]. by exists (net (snd (ensure_client w))), resp.
Qed.

Lemma normalize_fetched url_value (resp : response) :
  let content_type :=
    strip (before_char 59 (default [] (resp_content_type resp))) in
  _normalize_image_data_url url_value (b64encode (resp_content resp))
    (if nonempty content_type then Some content_type else None)
  = py "data:" ++ fetched_mime url_value resp ++ py ";base64,"
    ++ b64encode (resp_content resp).
Proof.
  intros content_type. unfold _normalize_image_data_url, fetched_mime.
  rewrite b64encode_not_data_uri. fold content_type.
  destruct (nonempty content_type) eqn:Hct; cbn [falsy_opt negb].
  - rewrite Hct. reflexivity.
  - reflexivity.
Qed.

Lemma build_image_part_resolved env seg (w : world) p :
  fst (_build_image_part env seg w) = Some p ->
  exists url, p = ImagePart url /\ resolved_from env seg url.
Proof.
  unfold _build_image_part, resolved_from. cbv zeta.
  change (Z.of_nat (length (py "base64://"))) with 9%Z.
  fold (inline_payload seg).
  destruct (nonempty (inline_payload seg)) eqn:Hb.
  - intros [= <-]. eexists. split; [done|]. left. split; [done|].
    unfold _normalize_image_data_url.
    destruct (startswith _ (inline_payload seg)); [by left | by right].
  - set (url_value := default [] (dict_get (py "url") (seg_data seg))).
    destruct (nonempty url_value) eqn:Hu; [|done]. cbn [negb].
    rewrite bind_run.
    destruct (fst (_fetch_image_base64 env url_value w))
      as [[enc mime]|] eqn:Hfetch; [|done].
    apply fetch_image_spec in Hfetch as (past & resp & Hr & Hs & -> & ->).
    destruct (nonempty (b64encode (resp_content resp))); [|done]. cbn [negb].
    intros [= <-]. eexists. split; [done|]. right.
    split; [done|]. split; [done|]. exists past, resp.
    split; [done|]. split; [done|]. apply normalize_fetched.
Qed.

Lemma flush_text_good env msg parts text_buffer :
  Forall (good_part env msg) parts ->
  Forall (good_part env msg) (fst (_flush_text parts text_buffer)).
Proof.
  intros H. unfold _flush_text. case_bool_decide; [done|].
  destruct (nonempty _); [|done]. cbn [fst].
  apply Forall_app. split; [done|]. by apply Forall_singleton.
Qed.

Lemma scan_segments_good env msg rest parts text_buffer (w : world) :
  (forall seg, seg ∈ rest -> seg ∈ msg) ->
  Forall (good_part env msg) parts ->
  Forall (good_part env msg)
         (fst (fst (scan_segments env rest parts text_buffer w))).
Proof.
  revert parts text_buffer w.
  induction rest as [|seg rest IH]; intros parts text_buffer w Hsub Hgood.
  - done.
  - assert (forall s, s ∈ rest -> s ∈ msg) as Hrest
      by (intros s Hs; apply Hsub; by right).
    cbn [scan_segments]. unfold str_eqb.
    case_bool_decide as Htext; [by apply IH|].
    case_bool_decide as Himage; cbn [negb]; [|by apply IH].
    pose proof (flush_text_good env msg parts text_buffer Hgood) as Hflush.
    destruct (_flush_text parts text_buffer) as [parts' buffer'].
    cbn [fst] in Hflush. rewrite bind_run.
    destruct (fst (_build_image_part env seg w)) as [p|] eqn:Hp;
      [|by apply IH].
    apply IH; [done|]. apply Forall_app. split; [done|].
    apply Forall_singleton.
    apply build_image_part_resolved in Hp as (url & -> & Hurl).
    exists seg. split; [apply Hsub; by left|]. done.
Qed.

Lemma assemble_parts_good env msg (w : world) :
  Forall (good_part env msg) (fst (assemble_parts env msg w)).
Proof.
  unfold assemble_parts. rewrite bind_run. cbn [ret fst].
  apply flush_text_good. by apply scan_segments_good.
Qed.

Lemma build_user_message_content env msg (w : world) um :
  fst (_build_user_message env msg w) = Some um ->
  let parts := fst (assemble_parts env msg w) in
  um = user_turn (JArr (part_json <$> parts))
  \/ exists text, parts = [TextPart text] /\ um = user_turn (JStr text).
Proof.
  unfold _build_user_message. rewrite bind_run.
  destruct (fst (assemble_parts env msg w)) as [|[text|url] [|q parts]];
    cbn [ret fst]; intros [= <-]; eauto.
Qed.

Lemma user_turn_content (c : json) :
  json_key (py "content") (user_turn c) = Some c.
Proof. vm_compute. reflexivity. Qed.

(** C4. Every entry of the content array of a built user turn is a text
    part or an image part, and the url of an image part is a data URI
    resolved from an image segment of the message: the inline payload of
    the segment, kept when it is a data URI already and wrapped as
    ["data:<mime>;base64,<payload>"] otherwise, or, for a segment with a
    remote URL only, the base64 encoding of the bytes a successful [GET]
    returned, wrapped the same way. The remote URL itself is never the
    url of a part. *)
Theorem image_parts_embedded (env : environment) (msg : list segment)
    (w : world) (um : json) (l : list json) (i : nat) (p : json) :
  fst (_build_user_message env msg w) = Some um ->
  json_key (py "content") um = Some (JArr l) ->
  l !! i = Some p ->
  (exists text, p = part_json (TextPart text))
  \/ (exists url,
        p = part_json (ImagePart url) /\
        startswith (py "data:") url = true /\
        exists seg, seg ∈ msg /\ seg_type seg = py "image"
                    /\ resolved_from env seg url).
Proof.
  intros Hum Hcontent Hp.
  pose proof (assemble_parts_good env msg w) as Hgood.
  destruct (build_user_message_content env msg w um Hum)
    as [->|(text & _ & ->)]; rewrite user_turn_content in Hcontent;
    [|discriminate Hcontent].
  injection Hcontent as <-.
  rewrite list_lookup_fmap in Hp.
  destruct (fst (assemble_parts env msg w) !! i) as [q|] eqn:Hq;
    [|discriminate Hp].
  injection Hp as <-.
  rewrite Forall_lookup in Hgood. specialize (Hgood i q Hq).
  destruct q as [text|url]; [left; by exists text|].
  right. exists url. split; [done|].
  destruct Hgood as (seg & Hin & Htype & Hres).
  split; [by apply (resolved_data_uri env seg)|]. by exists seg.
Qed.

Lemma image_parts_embedded_witness :
  (exists text,
     part_json (ImagePart (py "data:image/jpeg;base64,/9j/"))
     = part_json (TextPart text))
  \/ (exists url,
        part_json (ImagePart (py "data:image/jpeg;base64,/9j/"))
        = part_json (ImagePart url) /\
        startswith (py "data:") url = true /\
        exists seg, seg ∈ Sample.look_at_cat /\ seg_type seg = py "image"
                    /\ resolved_from Sample.env_photo seg url).
Proof.
  apply (image_parts_embedded Sample.env_photo Sample.look_at_cat
           Sample.empty_world
           (user_turn (JArr [part_json (TextPart (py "look"));
                             part_json (ImagePart
                                          (py "data:image/jpeg;base64,/9j/"))]))
           [part_json (TextPart (py "look"));
            part_json (ImagePart (py "data:image/jpeg;base64,/9j/"))]
           1%nat).
  - vm_compute. reflexivity.
  - vm_compute. reflexivity.
  - reflexivity.
Defined.

(** C6. For the message made of the text "hi" and an image whose inline
    base64 is "AAAA", the user turn has a content array of two parts: the
    text part "hi", then the image part whose url is
    "data:image/png;base64,AAAA". The MIME type is image/png exactly when
    the lower-cased file name ends with none of ".jpg", ".jpeg", ".gif"
    and ".webp". *)
Theorem text_then_inline_image (env : environment) (w : world) :
  fst (_build_user_message env
         [Sample.text_segment (py "hi");
          Sample.image_segment [(py "base64", py "AAAA")]] w)
  = Some (JObj [(py "role", JStr (py "user"));
                (py "content",
                 JArr [JObj [(py "type", JStr (py "text"));
                             (py "text", JStr (py "hi"))];
                       JObj [(py "type", JStr (py "image_url"));
                             (py "image_url",
                              JObj [(py "url",
                                     JStr (py "data:image/png;base64,AAAA"))])]])])
  /\ startswith (py "data:image/png;base64,")
                (py "data:image/png;base64,AAAA") = true
  /\ forall file_value : str,
       _infer_image_mime file_value = py "image/png" <->
       endswith (py ".jpg") (lower file_value) = false /\
       endswith (py ".jpeg") (lower file_value) = false /\
       endswith (py ".gif") (lower file_value) = false /\
       endswith (py ".webp") (lower file_value) = false.
Proof.
  split; [vm_compute; reflexivity|]. split; [vm_compute; reflexivity|].
  intros file_value. unfold _infer_image_mime. cbv zeta.
  destruct (endswith (py ".jpg") (lower file_value)),
           (endswith (py ".jpeg") (lower file_value)),
           (endswith (py ".gif") (lower file_value)),
           (endswith (py ".webp") (lower file_value));
    cbv beta iota delta [orb];
    (split; [intros H; vm_compute in H; try discriminate H; done
            |intros (?&?&?&?); try discriminate; reflexivity]).
Qed.

(** C7. When assembling a message leaves exactly one part and that part
    is text, the user turn holds the text itself as its content, not an
    array of parts; so the single text segment "hello" gives
    [{"role": "user", "content": "hello"}] in every world. *)
Theorem single_text_part_collapses (env : environment) (msg : list segment)
    (w : world) (text : str) :
  fst (assemble_parts env msg w) = [TextPart text] ->
  fst (_build_user_message env msg w)
  = Some (JObj [(py "role", JStr (py "user")); (py "content", JStr text)])
  /\ forall (env' : environment) (w' : world),
       fst (_build_user_message env' [Sample.text_segment (py "hello")] w')
       = Some (JObj [(py "role", JStr (py "user"));
                     (py "content", JStr (py "hello"))]).
Proof.
  intros H. split.
  - unfold _build_user_message. rewrite bind_run, H. reflexivity.
  - intros env' w'. vm_compute. reflexivity.
Qed.

Lemma single_text_part_collapses_witness :
  fst (_build_user_message Sample.env_ok
         [Sample.text_segment (py "  hello "); Sample.text_segment (py "world ")]
         Sample.empty_world)
  = Some (JObj [(py "role", JStr (py "user"));
                (py "content", JStr (py "hello world"))])
  /\ forall (env' : environment) (w' : world),
       fst (_build_user_message env' [Sample.text_segment (py "hello")] w')
       = Some (JObj [(py "role", JStr (py "user"));
                     (py "content", JStr (py "hello"))]).
Proof.
  apply (single_text_part_collapses Sample.env_ok
           [Sample.text_segment (py "  hello "); Sample.text_segment (py "world ")]
           Sample.empty_world (py "hello world")).
  vm_compute. reflexivity.
Defined.

(** * Further properties of the plugin *)

(** ** The store: histories and settings *)

(** X1. Loading a history never fails and never writes: it returns the
    stored list when the file holds a JSON array and the empty list when
    the file is missing, unreadable or holds something else. It sends no
    request and nothing to the chat, and when the file is missing it
    leaves the whole world, log included, as it was. *)
Theorem load_context_total (env : environment) (ev : event) (w : world) :
  let path := _get_context_path env ev in
  let w' := snd (_load_context env ev w) in
  fst (_load_context env ev w)
  = match files w !! path with
    | Some (FJson (JArr l)) => l
    | _ => []
    end /\
  files w' = files w /\ net w' = net w /\ sent w' = sent w /\
  match files w !! path with
  | None | Some (FJson (JArr _)) => w' = w
  | Some FCorrupt =>
      logs w' = logs w ++ [{| log_level_of := Exception;
                              log_format := py "Failed to load context: %s";
                              log_args := [ArgExc] |}]
  | Some (FJson _) =>
      logs w' = logs w ++ [{| log_level_of := Warning;
                              log_format := py "Invalid context format in %s";
                              log_args := [ArgStr path] |}]
  end.
Proof.
  intros path w'. split; [apply load_context_value|].
  unfold w', path, _load_context. rewrite !bind_run.
  unfold path_exists, _read_json. cbn [fst snd].
  destruct (files w !! _get_context_path env ev) as [[[]|]|] eqn:Hf.
  all: try (rewrite bool_decide_eq_true_2 by eauto; cbn [negb];
            rewrite bind_run; cbn [fst snd]; rewrite Hf;
            rewrite ?bind_run; unfold emit, ret;
            cbn [fst snd files net sent logs];
            repeat split; reflexivity).
  rewrite bool_decide_eq_false_2 by (intros [? ?]; discriminate).
  repeat split; reflexivity.
Qed.


(** X3. Setting a model and reading it back, outcome by outcome. When
    the directory cannot be made the exception leaves [_set_user_model]
    and the user keeps the model they had, as they do when the file
    cannot be opened. When the document is written in full the model
    read back is the one that was set, unless it is the empty string,
    which reads back as the configured default; when the write breaks
    off part-way the settings are lost and the configured default is
    read. *)
Theorem set_then_get_user_model (env : environment) (ev : event)
    (model : str) (w : world) :
  let path := _get_user_settings_path env ev in
  let settings := dict_set (py "model") (JStr model)
                    (fst (_load_user_settings env ev w)) in
  let res := _set_user_model env ev model w in
  fst res = (if makedirs_ok env (USER_SETTINGS_DIR env)
             then Ended else Escaped) /\
  fst (_get_user_model env ev (snd res))
  = if makedirs_ok env (USER_SETTINGS_DIR env) && writable env path
    then (if json_encodable (JObj settings) && write_through env path
          then (if nonempty model then Some model else openai_model env)
          else openai_model env)
    else fst (_get_user_model env ev w).
Proof.
  intros path settings res. unfold res.
  destruct (set_user_model_run env ev model w) as (_ & _ & He & Hf).
  split; [exact He|].
  rewrite !get_user_model_value, !load_user_settings_value, Hf.
  fold path settings.
  destruct (makedirs_ok env _ && writable env path); [|done].
  rewrite lookup_insert_eq. destruct (json_encodable _ && _); [|done].
  unfold settings. by rewrite dict_get_set_eq.
Qed.

(** X4. Reading the model of a user falls back to the configured default
    whenever the settings give no usable override: no settings file, a
    file that is unreadable or not a dictionary, no "model" field, or a
    "model" that is not a non-empty string. *)
Theorem get_user_model_default (env : environment) (ev : event) (w : world) :
  (forall d model,
     files w !! _get_user_settings_path env ev = Some (FJson (JObj d)) ->
     dict_get (py "model") d = Some (JStr model) ->
     nonempty model = true ->
     False) ->
  fst (_get_user_model env ev w) = openai_model env.
Proof.
  intros H. rewrite get_user_model_value, load_user_settings_value.
  destruct (files w !! _) as [[[]|]|] eqn:Hf; try reflexivity.
  destruct (dict_get _ d) as [[]|] eqn:Hd; try reflexivity.
  destruct (nonempty s) eqn:Hs; [|done]. exfalso. by eapply H.
Qed.

Lemma get_user_model_default_witness :
  fst (_get_user_model Sample.env_ok Sample.alice Sample.empty_world)
  = Some (py "gpt-4o-mini").
Proof.
  apply (get_user_model_default Sample.env_ok Sample.alice Sample.empty_world).
  intros d model H. vm_compute in H. discriminate H.
Defined.

(** ** Who shares a file with whom *)

Lemma path_join_inj (d x y : str) :
  startswith (py "/") x = false ->
  startswith (py "/") y = false ->
  path_join d x = path_join d y -> x = y.
Proof.
  intros Hx Hy. unfold path_join. rewrite Hx, Hy.
  destruct (negb (nonempty d) || endswith (py "/") d); intros H.
  - by apply app_inv_head in H.
  - by apply app_inv_head, app_inv_head in H.
Qed.

Lemma startswith_slash_app (u s : str) :
  startswith (py "/") u = false ->
  startswith (py "/") s = false ->
  startswith (py "/") (u ++ s) = false.
Proof.
  intros Hu Hs. destruct u as [|c t]; [done|].
  change (py "/") with [47] in *. cbn [app startswith] in *.
  by destruct (47 =? c).
Qed.

Lemma user_settings_path_inj env (ev ev' : event) :
  startswith (py "/") (user_id ev) = false ->
  startswith (py "/") (user_id ev') = false ->
  _get_user_settings_path env ev = _get_user_settings_path env ev' ->
  user_id ev = user_id ev'.
Proof.
  intros H H' Heq. unfold _get_user_settings_path in Heq.
  apply path_join_inj in Heq; [by apply app_inv_tail in Heq| |];
    by apply startswith_slash_app.
Qed.

(** X5. Setting the model of one user does not change the model read
    for another user, for user identifiers that do not start with "/"
    (which [os.path.join] would take as an absolute path): each such user
    has a settings file of their own. *)
Theorem set_user_model_other_user (env : environment) (ev ev' : event)
    (model : str) (w : world) :
  user_id ev <> user_id ev' ->
  startswith (py "/") (user_id ev) = false ->
  startswith (py "/") (user_id ev') = false ->
  _get_user_settings_path env ev <> _get_user_settings_path env ev' /\
  fst (_get_user_model env ev' (snd (_set_user_model env ev model w)))
  = fst (_get_user_model env ev' w).
Proof.
  intros Hne H H'.
  assert (_get_user_settings_path env ev <> _get_user_settings_path env ev')
    as Hpath by (intros Heq; by apply Hne, (user_settings_path_inj env)).
  split; [done|].
  rewrite !get_user_model_value, !load_user_settings_value.
  destruct (set_user_model_run env ev model w) as (_ & _ & _ & ->).
  destruct (_ && _); [|done]. by rewrite lookup_insert_ne.
Qed.

Lemma set_user_model_other_user_witness :
  _get_user_settings_path Sample.env_ok Sample.alice
  <> _get_user_settings_path Sample.env_ok
       {| user_id := py "10002"; group_id := None; message := [] |} /\
  fst (_get_user_model Sample.env_ok
         {| user_id := py "10002"; group_id := None; message := [] |}
         (snd (_set_user_model Sample.env_ok Sample.alice (py "o1-preview")
                 Sample.settings_world)))
  = fst (_get_user_model Sample.env_ok
           {| user_id := py "10002"; group_id := None; message := [] |}
           Sample.settings_world).
Proof.
  apply (set_user_model_other_user Sample.env_ok Sample.alice
           {| user_id := py "10002"; group_id := None; message := [] |}
           (py "o1-preview") Sample.settings_world).
  - vm_compute. intros H. discriminate H.
  - reflexivity.
  - reflexivity.
Defined.

(** What a handler does to the files: nothing, or one write to the
    history file of the session, which leaves there the trimmed list or
    a cut-off file. *)
Lemma handler_files env ev args (h : M ending) (w : world) :
  h = chat_handler env ev args \/ (args = message ev /\ h = tome_handler env ev) ->
  files (snd (h w)) = files w
  \/ exists um reply doc,
       fst (_build_user_message env args w) = Some um /\
       nonempty reply = true /\
       (doc = FJson (JArr (append_and_trim (fst (_load_context env ev w))
                                           um reply))
        \/ doc = FCorrupt) /\
       files (snd (h w)) = <[_get_context_path env ev := doc]> (files w).
Proof.
  intros Hh.
  destruct (fst (_build_user_message env args w)) as [um|] eqn:Hum.
  - destruct (handler_run env ev args h w um Hh Hum)
      as (w3 & Hf & _ & _ & Hrun).
    cbv zeta in Hrun. rewrite Hrun. clear Hrun.
    destruct (fst (_get_user_model env ev w)) as [model|]; [|by left].
    set (messages := _ ++ _ ++ [um]).
    destruct (keeps_call_openai env messages model w3) as [Hf4 _].
    destruct (fst (_call_openai env messages model w3)) as [reply|];
      [|left; cbn [snd]; by rewrite Hf4].
    destruct (nonempty reply) eqn:Hr;
      [|left; unfold finish; cbn [snd files]; by rewrite Hf4].
    set (kept := append_and_trim _ um reply).
    destruct (save_context_run env ev kept
                (snd (_call_openai env messages model w3)))
      as (_ & _ & _ & Hf5).
    assert (files (snd (match fst (_save_context env ev kept
                                     (snd (_call_openai env messages model w3)))
                        with
                        | Ended =>
                            (Ended,
                             snd (finish reply
                                    (snd (_save_context env ev kept
                                            (snd (_call_openai env messages
                                                    model w3))))))
                        | Escaped =>
                            (Escaped,
                             snd (_save_context env ev kept
                                    (snd (_call_openai env messages model w3))))
                        end))
            = files (snd (_save_context env ev kept
                            (snd (_call_openai env messages model w3)))))
      as -> by (by destruct (fst (_save_context env ev kept _))).
    rewrite Hf5, Hf4, Hf. clear Hf5.
    destruct (makedirs_ok env _ && writable env _); [|by left].
    right. exists um, reply. eexists. split; [done|]. split; [done|].
    split; [|reflexivity].
    destruct (json_encodable _ && _); [by left|by right].
  - left. destruct (keeps_build_user_message env args w) as [Hf _].
    destruct Hh as [->|[-> ->]].
    + rewrite chat_handler_converse, bind_run, Hum. exact Hf.
    + rewrite tome_handler_converse, bind_run, Hum. exact Hf.
Qed.

(** X6. A handler writes at most one file, the history file of the
    session it serves: whatever the message, the answer of the provider
    and the outcome, every other path of the store keeps its content, so
    other sessions and all user settings stored elsewhere are left as
    they were. *)
Theorem handler_writes_own_history_only (env : environment) (ev : event)
    (args : list segment) (w : world) (path : str) :
  path <> _get_context_path env ev ->
  files (snd (chat_handler env ev args w)) !! path = files w !! path /\
  files (snd (tome_handler env ev w)) !! path = files w !! path.
Proof.
  intros Hne. split.
  - destruct (handler_files env ev args (chat_handler env ev args) w)
      as [->|(um & reply & doc & _ & _ & _ & ->)]; [by left|done|].
    by rewrite lookup_insert_ne.
  - destruct (handler_files env ev (message ev) (tome_handler env ev) w)
      as [->|(um & reply & doc & _ & _ & _ & ->)]; [by right|done|].
    by rewrite lookup_insert_ne.
Qed.

Lemma handler_writes_own_history_only_witness :
  files (snd (chat_handler Sample.env_ok Sample.alice Sample.hello
                Sample.settings_world))
    !! _get_user_settings_path Sample.env_ok Sample.alice
  = files Sample.settings_world
      !! _get_user_settings_path Sample.env_ok Sample.alice /\
  files (snd (tome_handler Sample.env_ok Sample.alice Sample.settings_world))
    !! _get_user_settings_path Sample.env_ok Sample.alice
  = files Sample.settings_world
      !! _get_user_settings_path Sample.env_ok Sample.alice.
Proof.
  apply (handler_writes_own_history_only Sample.env_ok Sample.alice
           Sample.hello Sample.settings_world
           (_get_user_settings_path Sample.env_ok Sample.alice)).
  vm_compute. intros H. discriminate H.
Defined.

(** X7. The window holds at rest: after a handler has run, whatever
    happened, the history the next request loads is the one loaded
    before or has at most [MAX_CONTEXT_MESSAGES] entries; so a history
    within the window never leaves it. *)
Theorem history_window_at_rest (env : environment) (ev : event)
    (args : list segment) (w : world) :
  let before := fst (_load_context env ev w) in
  let after_chat :=
    fst (_load_context env ev (snd (chat_handler env ev args w))) in
  let after_tome :=
    fst (_load_context env ev (snd (tome_handler env ev w))) in
  (after_chat = before \/ (length after_chat <= MAX_CONTEXT_MESSAGES)%nat) /\
  (after_tome = before \/ (length after_tome <= MAX_CONTEXT_MESSAGES)%nat).
Proof.
  cbv zeta. rewrite !load_context_value. split.
  - destruct (handler_files env ev args (chat_handler env ev args) w)
      as [->|(um & reply & doc & _ & _ & [->| ->] & ->)];
      [by left|by left|right..]; rewrite lookup_insert_eq.
    + rewrite append_and_trim_length. lia.
    + cbn [length]. lia.
  - destruct (handler_files env ev (message ev) (tome_handler env ev) w)
      as [->|(um & reply & doc & _ & _ & [->| ->] & ->)];
      [by right|by left|right..]; rewrite lookup_insert_eq.
    + rewrite append_and_trim_length. lia.
    + cbn [length]. lia.
Qed.

(** X8. When a handler has a user turn, the completion call made for
    it returns a non-empty reply and the history document is written in
    full, the history the next request of the session loads is the
    previous history followed by the user turn and the assistant turn,
    cut to the window. *)
Theorem next_request_sees_exchange (env : environment) (ev : event)
    (args : list segment) (h : M ending) (w : world) (um : json)
    (model reply : str) :
  h = chat_handler env ev args \/ (args = message ev /\ h = tome_handler env ev) ->
  fst (_build_user_message env args w) = Some um ->
  fst (_get_user_model env ev w) = Some model ->
  let history := fst (_load_context env ev w) in
  let messages :=
    from_option (fun p => [p]) [] (fst (_load_prompt_message env w))
    ++ history ++ [um] in
  fst (_call_openai env messages model
         (snd (_build_user_message env args w))) = Some reply ->
  nonempty reply = true ->
  let path := _get_context_path env ev in
  makedirs_ok env (CONTEXT_DIR env) = true ->
  writable env path = true ->
  write_through env path = true ->
  json_encodable (JArr (append_and_trim history um reply)) = true ->
  fst (_load_context env ev (snd (h w)))
  = append_and_trim history um reply.
Proof.
  intros Hh Hum Hmodel history messages Hcall Hreply path Hmk Hw Hwt Henc.
  destruct (handler_saves env ev args h w um model reply
              Hh Hum Hmodel Hcall Hreply Hmk Hw Hwt Henc) as (_ & _ & Hf).
  rewrite (load_context_value env ev (snd _)), Hf.
  by rewrite lookup_insert_eq.
Qed.

Lemma next_request_sees_exchange_witness :
  length (fst (_load_context Sample.env_ok Sample.alice Sample.busy_world))
  = 20%nat /\
  fst (_load_context Sample.env_ok Sample.alice
         (snd (tome_handler Sample.env_ok Sample.alice Sample.busy_world)))
  = append_and_trim
      (fst (_load_context Sample.env_ok Sample.alice Sample.busy_world))
      (user_turn (JStr (py "hello"))) (py "Hi there").
Proof.
  split; [vm_compute; reflexivity|].
  apply (next_request_sees_exchange Sample.env_ok Sample.alice Sample.hello
           (tome_handler Sample.env_ok Sample.alice)
           Sample.busy_world (user_turn (JStr (py "hello")))
           (py "gpt-4o-mini") (py "Hi there")).
  - right. split; reflexivity.
  - vm_compute. reflexivity.
  - vm_compute. reflexivity.
  - vm_compute. reflexivity.
  - reflexivity.
  - reflexivity.
  - reflexivity.
  - reflexivity.
  - vm_compute. reflexivity.
Defined.

(** ** More on the message assembler *)

Lemma scan_text_only env msg parts text_buffer (w : world) :
  Forall (fun seg => seg_type seg = py "text") msg ->
  scan_segments env msg parts text_buffer w
  = ((parts, text_buffer ++ (segment_text <$> msg)), w).
Proof.
  revert text_buffer.
  induction msg as [|seg rest IH]; intros text_buffer Hall.
  - cbn [scan_segments fmap list_fmap]. by rewrite app_nil_r.
  - apply Forall_cons in Hall as [Hseg Hall].
    cbn [scan_segments]. unfold str_eqb.
    rewrite bool_decide_eq_true_2 by done.
    rewrite IH by done. rewrite fmap_cons, <- app_assoc. reflexivity.
Qed.

(** X9. A message made of text segments only needs nothing from outside:
    the world is left exactly as it was (no request, no log entry), and
    the user turn holds the joined texts with the surrounding whitespace
    removed as a plain string; when nothing is left after that (no
    segment, or whitespace only) there is no user turn. *)
Theorem text_only_message (env : environment) (msg : list segment)
    (w : world) :
  Forall (fun seg => seg_type seg = py "text") msg ->
  let text := strip (join_empty (segment_text <$> msg)) in
  _build_user_message env msg w
  = (if nonempty text then Some (user_turn (JStr text)) else None, w).
Proof.
  intros Hall text. unfold _build_user_message, assemble_parts.
  rewrite !bind_run, scan_text_only by done. cbn [fst snd ret app].
  unfold _flush_text. case_bool_decide as Hnil.
  - cbn [fst]. unfold text. rewrite Hnil. reflexivity.
  - fold text. by destruct (nonempty text).
Qed.

Lemma text_only_message_witness :
  _build_user_message Sample.env_ok
    [Sample.text_segment (py "  "); Sample.text_segment [9; 10]]
    Sample.empty_world
  = (None, Sample.empty_world).
Proof.
  apply (text_only_message Sample.env_ok
           [Sample.text_segment (py "  "); Sample.text_segment [9; 10]]
           Sample.empty_world).
  repeat constructor.
Defined.

Lemma scan_segments_filter env msg parts text_buffer (w : world) :
  scan_segments env (filter text_or_image msg) parts text_buffer w
  = scan_segments env msg parts text_buffer w.
Proof.
  revert parts text_buffer w.
  induction msg as [|seg rest IH]; intros parts text_buffer w; [done|].
  cbn [scan_segments]. unfold str_eqb.
  destruct (decide (seg_type seg = py "text")) as [Ht|Ht].
  - rewrite filter_cons_True by (by left). cbn [scan_segments].
    unfold str_eqb. rewrite !bool_decide_eq_true_2 by done. apply IH.
  - rewrite (bool_decide_eq_false_2 _ Ht).
    destruct (decide (seg_type seg = py "image")) as [Hi|Hi].
    + rewrite filter_cons_True by (by right). cbn [scan_segments].
      unfold str_eqb.
      rewrite (bool_decide_eq_false_2 _ Ht), (bool_decide_eq_true_2 _ Hi).
      cbn [negb]. destruct (_flush_text parts text_buffer) as [ps tb].
      rewrite !bind_run. destruct (fst (_build_image_part env seg w)); apply IH.
    + rewrite filter_cons_False by (intros [?|?]; done).
      rewrite (bool_decide_eq_false_2 _ Hi). cbn [negb]. apply IH.
Qed.

(** X10. Segments that are neither text nor image play no part:
    dropping them from the message changes neither the user turn built
    nor what building it does to the world. *)
Theorem other_segments_ignored (env : environment) (msg : list segment)
    (w : world) :
  _build_user_message env (filter text_or_image msg) w
  = _build_user_message env msg w.
Proof.
  unfold _build_user_message, assemble_parts.
  rewrite !bind_run, scan_segments_filter. reflexivity.
Qed.

Lemma lstrip_head (s : str) (c : N) :
  head (lstrip s) = Some c -> isspace c = false.
Proof.
  induction s as [|a s IH]; [done|]. cbn [lstrip].
  destruct (isspace a) eqn:Ha; [done|]. cbn [head]. by intros [= <-].
Qed.

Lemma lstrip_suffix (s : str) : exists p, s = p ++ lstrip s.
Proof.
  induction s as [|a s [p IH]]; [by exists []|]. cbn [lstrip].
  destruct (isspace a); [|by exists []].
  exists (a :: p). cbn [app]. by rewrite <- IH.
Qed.

Lemma lstrip_fixed (s : str) :
  (forall c, head s = Some c -> isspace c = false) -> lstrip s = s.
Proof.
  destruct s as [|a s]; [done|]. intros H. cbn [lstrip].
  by rewrite (H a).
Qed.

Lemma strip_ends (s : str) :
  (forall c, head (strip s) = Some c -> isspace c = false) /\
  (forall c, last (strip s) = Some c -> isspace c = false).
Proof.
  unfold strip, rstrip. split; intros c.
  - rewrite head_reverse. intros Hlast.
    destruct (lstrip_suffix (reverse (lstrip s))) as [p Hp].
    apply (lstrip_head s). rewrite <- last_reverse, Hp, last_app.
    by rewrite Hlast.
  - rewrite last_reverse. apply lstrip_head.
Qed.

Lemma strip_idemp (s : str) : strip (strip s) = strip s.
Proof.
  destruct (strip_ends s) as [Hhead Hlast].
  unfold strip at 1. rewrite (lstrip_fixed (strip s)) by done.
  unfold rstrip. rewrite lstrip_fixed; [apply reverse_involutive|].
  intros c. rewrite head_reverse. apply Hlast.
Qed.

Lemma flush_text_solid parts text_buffer :
  Forall solid_part parts ->
  Forall solid_part (fst (_flush_text parts text_buffer)).
Proof.
  intros H. unfold _flush_text. case_bool_decide; [done|].
  destruct (nonempty _) eqn:Hne; [|done]. cbn [fst].
  apply Forall_app. split; [done|]. apply Forall_singleton.
  split; [done|]. apply strip_idemp.
Qed.

Lemma image_part_solid env seg (w : world) p :
  fst (_build_image_part env seg w) = Some p -> solid_part p.
Proof.
  intros H. apply build_image_part_resolved in H as (url & -> & Hres).
  apply resolved_data_uri, startswith_app in Hres as [t ->]. reflexivity.
Qed.

Lemma scan_segments_solid env msg parts text_buffer (w : world) :
  Forall solid_part parts ->
  Forall solid_part (fst (fst (scan_segments env msg parts text_buffer w))).
Proof.
  revert parts text_buffer w.
  induction msg as [|seg rest IH]; intros parts text_buffer w Hsolid; [done|].
  cbn [scan_segments].
  destruct (str_eqb _ _); [by apply IH|].
  destruct (negb _); [by apply IH|].
  pose proof (flush_text_solid parts text_buffer Hsolid) as Hflush.
  destruct (_flush_text parts text_buffer) as [parts' buffer'].
  cbn [fst] in Hflush. rewrite bind_run.
  destruct (fst (_build_image_part env seg w)) as [p|] eqn:Hp; [|by apply IH].
  apply IH. apply Forall_app. split; [done|]. apply Forall_singleton.
  by apply (image_part_solid env seg w).
Qed.

(** X11. A user turn is never empty. Its content is a non-empty string
    without surrounding whitespace, or an array of at least one part in
    which every text is non-empty and without surrounding whitespace and
    every image url is non-empty. *)
Theorem user_turn_never_empty (env : environment) (msg : list segment)
    (w : world) (um : json) :
  fst (_build_user_message env msg w) = Some um ->
  (exists text, um = user_turn (JStr text) /\ solid_part (TextPart text))
  \/ (exists parts,
        um = user_turn (JArr (part_json <$> parts)) /\
        parts <> [] /\ Forall solid_part parts).
Proof.
  intros Hum.
  assert (Forall solid_part (fst (assemble_parts env msg w))) as Hsolid.
  { unfold assemble_parts. rewrite bind_run. cbn [ret fst].
    apply flush_text_solid. by apply scan_segments_solid. }
  revert Hum Hsolid. unfold _build_user_message. rewrite bind_run.
  destruct (fst (assemble_parts env msg w)) as [|[text|url] [|q parts]];
    cbn [ret fst]; intros [= <-] Hsolid.
  - left. exists text. split; [done|].
    exact (proj1 (Forall_singleton _ _) Hsolid).
  - right. exists (TextPart text :: q :: parts).
    split; [reflexivity|]. split; [discriminate|exact Hsolid].
  - right. exists [ImagePart url].
    split; [reflexivity|]. split; [discriminate|exact Hsolid].
  - right. exists (ImagePart url :: q :: parts).
    split; [reflexivity|]. split; [discriminate|exact Hsolid].
Qed.

Lemma user_turn_never_empty_witness :
  (exists text,
     user_turn (JStr (py "hello")) = user_turn (JStr text)
     /\ solid_part (TextPart text))
  \/ (exists parts,
        user_turn (JStr (py "hello")) = user_turn (JArr (part_json <$> parts)) /\
        parts <> [] /\ Forall solid_part parts).
Proof.
  apply (user_turn_never_empty Sample.env_ok Sample.hello Sample.empty_world
           (user_turn (JStr (py "hello")))).
  vm_compute. reflexivity.
Defined.

Lemma b64encode_nonempty (bs : list N) :
  nonempty (b64encode bs) = nonempty bs.
Proof. by destruct bs as [|a [|b [|c rest]]]. Qed.

Lemma inferred_mime_is_image (file_value base64_value : str) :
  startswith (py "data:image/")
    (py "data:" ++ _infer_image_mime file_value ++ py ";base64," ++ base64_value)
  = true.
Proof.
  unfold _infer_image_mime. cbv zeta.
  destruct (_ || _); [vm_compute; reflexivity|].
  destruct (endswith (py ".gif") _); [vm_compute; reflexivity|].
  destruct (endswith (py ".webp") _); vm_compute; reflexivity.
Qed.

(** X12. Normalising an image twice changes nothing: the url built from
    an inline payload starts with "data:image/", and giving it back to
    [_normalize_image_data_url] as a payload, under any file name and
    MIME type, returns it as it is. *)
Theorem normalize_idempotent (file_value base64_value file_value' : str)
    (mime' : option str) :
  let url := _normalize_image_data_url file_value base64_value None in
  startswith (py "data:image/") url = true /\
  _normalize_image_data_url file_value' url mime' = url.
Proof.
  intros url.
  assert (startswith (py "data:image/") url = true) as H.
  { unfold url, _normalize_image_data_url.
    destruct (startswith _ base64_value) eqn:Hb; [done|].
    cbn [falsy_opt]. apply inferred_mime_is_image. }
  split; [done|]. unfold _normalize_image_data_url at 1. by rewrite H.
Qed.

Lemma fetch_image_run env url (w : world) :
  net (snd (_fetch_image_base64 env url w)) = net w ++ [image_request url] /\
  fst (_fetch_image_base64 env url w)
  = match remote env (net w) (image_request url) with
    | Responded resp =>
        if is_success resp then
          Some (b64encode (resp_content resp),
                let content_type :=
                  strip (before_char 59 (default [] (resp_content_type resp))) in
                if nonempty content_type then Some content_type else None)
        else None
    | Raised => None
    end.
Proof.
  assert (net (snd (ensure_client w)) = net w) as Hnet
    by (unfold ensure_client; by destruct (http_client w)).
  unfold _fetch_image_base64. rewrite !bind_run.
  unfold send_request. cbn [fst snd]. rewrite Hnet.
  fold (image_request url).
  destruct (remote env (net w) (image_request url)) as [|resp];
    [split; reflexivity|].
  destruct (is_success resp); split; reflexivity.
Qed.

(** X13. What an image segment resolves to, case by case. With an inline
    payload the part is built from it and the world is not touched: no
    request is sent. Without payload and without url there is no part and
    the world is not touched either. Otherwise exactly one [GET] of the
    url is sent, and a part is built exactly when the answer is a 2xx
    response with a non-empty body; it then holds the base64 of the body
    under the MIME type of the response, or of the url's extension. *)
Theorem image_part_cases (env : environment) (seg : segment) (w : world) :
  let file_value := default [] (dict_get (py "file") (seg_data seg)) in
  let url_value := default [] (dict_get (py "url") (seg_data seg)) in
  let res := _build_image_part env seg w in
  if nonempty (inline_payload seg) then
    res = (Some (ImagePart (_normalize_image_data_url file_value
                              (inline_payload seg) None)), w)
  else if nonempty url_value then
    net (snd res) = net w ++ [image_request url_value] /\
    fst res
    = match remote env (net w) (image_request url_value) with
      | Responded resp =>
          if is_success resp && nonempty (resp_content resp)
          then Some (ImagePart (py "data:" ++ fetched_mime url_value resp
                                ++ py ";base64,"
                                ++ b64encode (resp_content resp)))
          else None
      | Raised => None
      end
  else res = (None, w).
Proof.
  cbv zeta. unfold _build_image_part. cbv zeta.
  change (Z.of_nat (length (py "base64://"))) with 9%Z.
  fold (inline_payload seg).
  destruct (nonempty (inline_payload seg)); [done|].
  set (url_value := default [] (dict_get (py "url") (seg_data seg))).
  destruct (nonempty url_value); cbn [negb]; [|done].
  rewrite bind_run.
  destruct (fetch_image_run env url_value w) as [Hnet Hfetch].
  rewrite Hfetch.
  destruct (remote env (net w) (image_request url_value)) as [|resp].
  - rewrite bind_run. unfold emit, ret. cbn [fst snd net]. done.
  - destruct (is_success resp); cbn [andb].
    + rewrite b64encode_nonempty.
      destruct (nonempty (resp_content resp)); cbn [negb].
      * unfold ret. cbn [fst snd]. split; [done|].
        by rewrite normalize_fetched.
      * done.
    + rewrite bind_run. unfold emit, ret. cbn [fst snd net]. done.
Qed.

(** ** More on the completion client *)

Lemma call_openai_net env messages model (w : world) :
  net (snd (_call_openai env messages model w))
  = if falsy_opt (openai_api_key env) then net w
    else net w ++ [completion_request env messages model].
Proof.
  destruct (falsy_opt (openai_api_key env)) eqn:Hkey.
  { destruct (config_without_key env Hkey) as [Hc|(k & u & m & Hc & _)].
    - by rewrite call_openai_unset.
    - by rewrite call_openai_no_key by (by rewrite ?Hc). }
  destruct (config_of_key env Hkey) as (key & base_url & m & Hc & _ & _ & _ & Hne).
  unfold _call_openai. rewrite Hc. cbv beta iota zeta.
  assert (falsy_opt (Some key) = false) as -> by (cbn; by rewrite Hne).
  rewrite !bind_run.
  set (w1 := snd (ensure_client w)).
  assert (net w1 = net w) as Hnet by apply keeps_net_ensure_client.
  destruct (fst (send_request env _ w1)) as [|resp].
  - rewrite bind_run. unfold emit, ret, send_request.
    cbn [fst snd net]. by rewrite Hnet.
  - destruct (is_success resp).
    + destruct (_ ≫= _).
      * unfold ret, send_request. cbn [fst snd net]. by rewrite Hnet.
      * rewrite bind_run. unfold emit, ret, send_request.
        cbn [fst snd net]. by rewrite Hnet.
    + rewrite bind_run. unfold emit, ret, send_request.
      cbn [fst snd net]. by rewrite Hnet.
Qed.

(** X14. The completion call never retries and never writes: with an
    API key it sends exactly one request, the [POST] of the payload,
    whatever the answer is; without a key it sends none. In both cases
    the files and the chat are left alone. *)
Theorem call_openai_single_request (env : environment)
    (messages : list json) (model : str) (w : world) :
  let w' := snd (_call_openai env messages model w) in
  net w' = (if falsy_opt (openai_api_key env) then net w
            else net w ++ [completion_request env messages model]) /\
  req_method (completion_request env messages model) = POST /\
  req_json (completion_request env messages model)
  = Some (JObj [(py "model", JStr model); (py "messages", JArr messages);
                (py "temperature", JNum 7 (-1))]) /\
  files w' = files w /\ sent w' = sent w.
Proof.
  cbv zeta. split; [apply call_openai_net|].
  split; [reflexivity|]. split; [reflexivity|].
  apply keeps_call_openai.
Qed.

(** X15. With a key, when the remote answers 2xx with a JSON object
    whose first choice holds a message with a string content, the reply
    is that content without its surrounding whitespace and nothing is
    logged. *)
Theorem call_openai_success (env : environment) (messages : list json)
    (model : str) (w : world) (resp : response)
    (d c m : dict json) (others : list json) (content : str) :
  falsy_opt (openai_api_key env) = false ->
  remote env (net w) (completion_request env messages model) = Responded resp ->
  is_success resp = true ->
  resp_json resp = Some (JObj d) ->
  dict_get (py "choices") d = Some (JArr (JObj c :: others)) ->
  dict_get (py "message") c = Some (JObj m) ->
  dict_get (py "content") m = Some (JStr content) ->
  fst (_call_openai env messages model w) = Some (strip content) /\
  logs (snd (_call_openai env messages model w)) = logs w.
Proof.
  intros Hkey Hresp Hok Hjson Hchoices Hmsg Hcontent.
  assert (resp_json resp ≫= reply_content = Some (strip content)) as Hreply.
  { rewrite Hjson. cbn [mbind option_bind]. unfold reply_content.
    cbn [json_key]. rewrite Hchoices. cbn -[py strip dict_get].
    rewrite Hmsg. cbn -[py strip dict_get]. rewrite Hcontent. reflexivity. }
  split.
  - rewrite call_openai_with_key by done. cbv zeta.
    rewrite Hresp, Hok, Hreply. reflexivity.
  - destruct (config_of_key env Hkey)
      as (key & base_url & m0 & Hc & _ & _ & _ & Hne).
    revert Hresp. unfold _call_openai. rewrite Hc. cbv beta iota zeta.
    assert (falsy_opt (Some key) = false) as -> by (cbn; by rewrite Hne).
    intros Hresp. rewrite !bind_run.
    assert (net (snd (ensure_client w)) = net w
            /\ logs (snd (ensure_client w)) = logs w) as [Hnet Hlogs].
    { unfold ensure_client. by destruct (http_client w). }
    unfold send_request at 1 2. cbn [fst snd]. rewrite Hnet, Hresp, Hok, Hreply.
    unfold ret. cbn [snd logs]. exact Hlogs.
Qed.

Lemma call_openai_success_witness :
  fst (_call_openai Sample.env_ok [] (py "gpt-4o-mini") Sample.empty_world)
  = Some (strip (py " Hi there ")) /\
  logs (snd (_call_openai Sample.env_ok [] (py "gpt-4o-mini")
               Sample.empty_world)) = logs Sample.empty_world.
Proof.
  apply (call_openai_success Sample.env_ok [] (py "gpt-4o-mini")
           Sample.empty_world (Sample.ok_response (py " Hi there "))
           [(py "choices",
             JArr [JObj [(py "message",
                          JObj [(py "role", JStr (py "assistant"));
                                (py "content", JStr (py " Hi there "))])]])]
           [(py "message",
             JObj [(py "role", JStr (py "assistant"));
                   (py "content", JStr (py " Hi there "))])]
           [(py "role", JStr (py "assistant"));
            (py "content", JStr (py " Hi there "))]
           [] (py " Hi there ")).
  - reflexivity.
  - reflexivity.
  - reflexivity.
  - reflexivity.
  - vm_compute. reflexivity.
  - vm_compute. reflexivity.
  - vm_compute. reflexivity.
Defined.

Lemma lstrip_char_spec (c : N) (s : str) :
  exists n, s = replicate n c ++ lstrip_char c s
            /\ head (lstrip_char c s) <> Some c.
Proof.
  induction s as [|a s (n & Hs & Hhead)]; [by exists 0%nat|].
  cbn [lstrip_char]. destruct (N.eqb_spec a c) as [->|Hne].
  - exists (S n). cbn [replicate app]. by rewrite <- Hs.
  - exists 0%nat. split; [done|]. cbn [head]. congruence.
Qed.

Lemma rstrip_char_spec (c : N) (s : str) :
  exists n, s = rstrip_char c s ++ replicate n c
            /\ last (rstrip_char c s) <> Some c.
Proof.
  destruct (lstrip_char_spec c (reverse s)) as (n & Hs & Hhead).
  exists n. unfold rstrip_char. split.
  - rewrite <- (reverse_involutive s), Hs at 1.
    by rewrite reverse_app, reverse_replicate.
  - by rewrite last_reverse.
Qed.

(** X16. The request goes to the base url without its trailing slashes,
    followed by "/chat/completions": however many slashes end the
    configured base url, the url has a single one before
    "chat/completions". It carries the key as a bearer token. *)
Theorem completion_url_slashes (env : environment) (messages : list json)
    (model : str) :
  exists (stem : str) (n : nat),
    openai_base_url env = stem ++ replicate n 47 /\
    last stem <> Some 47 /\
    req_url (completion_request env messages model)
    = stem ++ py "/chat/completions" /\
    req_headers (completion_request env messages model)
    = [(py "Authorization",
        py "Bearer " ++ default [] (openai_api_key env))].
Proof.
  destruct (rstrip_char_spec 47 (openai_base_url env)) as (n & Hs & Hlast).
  exists (rstrip_char 47 (openai_base_url env)), n.
  split; [exact Hs|]. split; [exact Hlast|]. split; reflexivity.
Qed.

Lemma get_user_model_some env ev (w : world) :
  is_Some (openai_model env) -> is_Some (fst (_get_user_model env ev w)).
Proof.
  intros H. rewrite get_user_model_value.
  destruct (dict_get _ _) as [[]|]; try done. by destruct (nonempty _).
Qed.

(** The requests of a handler that has a key and a user turn. *)
Lemma handler_net env ev args (h : M ending) (w : world) um :
  h = chat_handler env ev args \/ (args = message ev /\ h = tome_handler env ev) ->
  falsy_opt (openai_api_key env) = false ->
  fst (_build_user_message env args w) = Some um ->
  exists model,
    fst (_get_user_model env ev w) = Some model /\
    net (snd (h w))
    = net (snd (_build_user_message env args w))
      ++ [completion_request env
            (from_option (fun p => [p]) [] (fst (_load_prompt_message env w))
             ++ fst (_load_context env ev w) ++ [um])
            model].
Proof.
  intros Hh Hkey Hum.
  destruct (config_of_key env Hkey) as (_ & _ & m & _ & _ & _ & Hm & _).
  destruct (get_user_model_some env ev w) as [model Hmodel];
    [by rewrite Hm|].
  exists model. split; [done|].
  destruct (handler_run env ev args h w um Hh Hum)
    as (w3 & _ & _ & Hn & Hrun).
  cbv zeta in Hrun. rewrite Hrun, Hmodel. clear Hrun.
  set (messages := _ ++ _ ++ [um]).
  pose proof (call_openai_net env messages model w3) as Hnet.
  rewrite Hkey, Hn in Hnet.
  destruct (fst (_call_openai env messages model w3)) as [reply|]; [|done].
  destruct (nonempty reply); [|cbn [snd]; by rewrite keeps_net_finish].
  set (kept := append_and_trim _ um reply).
  pose proof (keeps_net_save_context env ev kept
                (snd (_call_openai env messages model w3))) as Hsave.
  destruct (fst (_save_context env ev kept _)); cbn [snd];
    by rewrite ?keeps_net_finish, Hsave.
Qed.

(** X17. What a handler asks the provider: with an API key and a user
    turn, it sends, after the image fetches of the assembler, exactly
    one completion request; its messages are the system turn of the
    prompt file (when there is one), the loaded history in its order and
    the new user turn, and its model is the one read for the user. *)
Theorem handler_request (env : environment) (ev : event)
    (args : list segment) (h : M ending) (w : world) (um : json) :
  h = chat_handler env ev args \/ (args = message ev /\ h = tome_handler env ev) ->
  falsy_opt (openai_api_key env) = false ->
  fst (_build_user_message env args w) = Some um ->
  exists model,
    fst (_get_user_model env ev w) = Some model /\
    net (snd (h w))
    = net (snd (_build_user_message env args w))
      ++ [completion_request env
            (from_option (fun p => [p]) [] (fst (_load_prompt_message env w))
             ++ fst (_load_context env ev w) ++ [um])
            model].
Proof. apply handler_net. Qed.

Lemma handler_request_witness :
  exists model,
    fst (_get_user_model Sample.env_ok Sample.alice Sample.settings_world)
    = Some model /\
    net (snd (chat_handler Sample.env_ok Sample.alice Sample.hello
                Sample.settings_world))
    = net (snd (_build_user_message Sample.env_ok Sample.hello
                  Sample.settings_world))
      ++ [completion_request Sample.env_ok
            (from_option (fun p => [p]) []
               (fst (_load_prompt_message Sample.env_ok Sample.settings_world))
             ++ fst (_load_context Sample.env_ok Sample.alice
                       Sample.settings_world)
             ++ [user_turn (JStr (py "hello"))])
            model].
Proof.
  apply (handler_request Sample.env_ok Sample.alice Sample.hello
           (chat_handler Sample.env_ok Sample.alice Sample.hello)
           Sample.settings_world (user_turn (JStr (py "hello")))).
  - left. reflexivity.
  - reflexivity.
  - vm_compute. reflexivity.
Defined.

(** X18. A model chosen with [_set_user_model] is the one the next
    request of that user asks for: when the key is there, the chosen
    model is not empty and the settings document is written in full
    (the directory can be made, the file opened, every string of the
    document encodes and the file takes the whole text), the request the
    chat handler then sends names that model. *)
Theorem chosen_model_is_requested (env : environment) (ev : event)
    (args : list segment) (w : world) (model : str) (um : json) :
  falsy_opt (openai_api_key env) = false ->
  nonempty model = true ->
  let path := _get_user_settings_path env ev in
  let settings := dict_set (py "model") (JStr model)
                    (fst (_load_user_settings env ev w)) in
  makedirs_ok env (USER_SETTINGS_DIR env) = true ->
  writable env path = true ->
  write_through env path = true ->
  json_encodable (JObj settings) = true ->
  let w1 := snd (_set_user_model env ev model w) in
  fst (_build_user_message env args w1) = Some um ->
  exists messages,
    last (net (snd (chat_handler env ev args w1)))
    = Some (completion_request env messages model).
Proof.
  intros Hkey Hmodel path settings Hmk Hw Hwt Henc w1 Hum.
  destruct (handler_net env ev args (chat_handler env ev args) w1 um
              (or_introl eq_refl) Hkey Hum) as (model' & Hm & ->).
  eexists. rewrite last_snoc. do 2 f_equal.
  revert Hm. rewrite get_user_model_value, load_user_settings_value.
  unfold w1.
  destruct (set_user_model_run env ev model w) as (_ & _ & _ & ->).
  fold path settings. rewrite Hmk, Hw, Henc, Hwt. cbn [andb].
  rewrite lookup_insert_eq. unfold settings.
  rewrite dict_get_set_eq, Hmodel. congruence.
Qed.

Lemma chosen_model_is_requested_witness :
  exists messages,
    last (net (snd (chat_handler Sample.env_ok Sample.alice Sample.hello
                      (snd (_set_user_model Sample.env_ok Sample.alice
                              (py "o1-preview") Sample.settings_world)))))
    = Some (completion_request Sample.env_ok messages (py "o1-preview")).
Proof.
  apply (chosen_model_is_requested Sample.env_ok Sample.alice Sample.hello
           Sample.settings_world (py "o1-preview")
           (user_turn (JStr (py "hello")))).
  - reflexivity.
  - reflexivity.
  - reflexivity.
  - reflexivity.
  - reflexivity.
  - vm_compute. reflexivity.
  - vm_compute. reflexivity.
Defined.

(** ** The model directory: listing and choosing *)

Lemma str_leb_total (a b : str) : str_leb a b = true \/ str_leb b a = true.
Proof.
  revert b. induction a as [|x a IH]; intros [|y b]; cbn [str_leb]; auto.
  destruct (N.ltb_spec x y), (N.ltb_spec y x); auto; lia.
Qed.

#[local] Instance str_le_total : Total str_le.
Proof. intros a b. apply str_leb_total. Qed.

Lemma model_entries_value (models : list json) :
  model_entries models
  = if forallb listable models
    then Some (model_entry <$> omap listed_id models)
    else None.
Proof.
  induction models as [|item rest IH]; [done|].
  cbn [model_entries forallb omap list_omap].
  destruct item as [| | | | |d]; try reflexivity.
  unfold listable at 1, listed_id at 1.
  destruct (dict_get (py "id") d) as [[| | |model_id| |]|];
    cbn [json_truthy negb andb]; rewrite ?IH; try reflexivity;
    try (destruct (forallb listable rest); reflexivity).
  - destruct b; cbn [negb andb]; [reflexivity|].
    by destruct (forallb listable rest).
  - destruct (negb (m =? 0)%Z); cbn [negb andb]; [reflexivity|].
    by destruct (forallb listable rest).
  - destruct (nonempty model_id); by destruct (forallb listable rest).
  - destruct l; cbn [negb andb]; [|reflexivity].
    by destruct (forallb listable rest).
  - destruct d0; cbn [negb andb]; [|reflexivity].
    by destruct (forallb listable rest).
Qed.

(** X19. The loop over the models lists, in their order, the items whose
    "id" is a non-empty string and skips those without an "id" or with a
    falsy one; it raises exactly when some item is not a dictionary or
    has a truthy "id" that is not a string, however many good items come
    before it. *)
Theorem model_entries_listing (models : list json) :
  (forallb listable models = true ->
   model_entries models = Some (model_entry <$> omap listed_id models)) /\
  (forallb listable models = false -> model_entries models = None) /\
  (forall items_before item items_after,
     models = items_before ++ item :: items_after ->
     listable item = false -> model_entries models = None).
Proof.
  split; [|split].
  - intros H. by rewrite model_entries_value, H.
  - intros H. by rewrite model_entries_value, H.
  - intros before item after -> Hitem. rewrite model_entries_value.
    rewrite forallb_app. cbn [forallb]. rewrite Hitem.
    by rewrite andb_false_r.
Qed.

Lemma model_entries_listing_witness :
  model_entries
    [SampleDirectory.model_item (py "o1-preview");
     JObj [(py "object", JStr (py "model"))];
     SampleDirectory.model_item (py "gpt-4o-mini")]
  = Some (model_entry
            <$> omap listed_id
                  [SampleDirectory.model_item (py "o1-preview");
                   JObj [(py "object", JStr (py "model"))];
                   SampleDirectory.model_item (py "gpt-4o-mini")]).
Proof.
  apply (model_entries_listing
           [SampleDirectory.model_item (py "o1-preview");
            JObj [(py "object", JStr (py "model"))];
            SampleDirectory.model_item (py "gpt-4o-mini")]).
  vm_compute. reflexivity.
Defined.

Lemma fetch_models_unset env (w : world) :
  _get_openai_config env = None -> _fetch_models env w = (None, w).
Proof. intros H. unfold _fetch_models. by rewrite H. Qed.

Lemma fetch_models_no_key env (w : world) api_key base_url model :
  _get_openai_config env = Some (api_key, base_url, model) ->
  falsy_opt api_key = true ->
  _fetch_models env w = (Some [], w).
Proof. intros Hc H. unfold _fetch_models. by rewrite Hc, H. Qed.

Lemma fetch_models_net_no_key env (w : world) :
  falsy_opt (openai_api_key env) = true ->
  net (snd (_fetch_models env w)) = net w.
Proof.
  intros Hkey.
  destruct (config_without_key env Hkey) as [Hc|(k & u & m & Hc & Hk)].
  - by rewrite fetch_models_unset.
  - by rewrite (fetch_models_no_key env w k u m).
Qed.

Lemma keeps_fetch_models env : keeps_store (_fetch_models env).
Proof. unfold _fetch_models, _get_openai_config. keeps. Qed.

Lemma fetch_models_run env (w : world) :
  falsy_opt (openai_api_key env) = false ->
  net (snd (_fetch_models env w)) = net w ++ [models_request env] /\
  logs (snd (_fetch_models env w)) = logs w /\
  fst (_fetch_models env w)
  = match remote env (net w) (models_request env) with
    | Raised => None
    | Responded resp =>
        if is_success resp then
          match resp_json resp with
          | Some (JObj data) =>
              Some (match dict_get (py "data") data with
                    | Some (JArr models) => models
                    | _ => []
                    end)
          | _ => None
          end
        else None
    end.
Proof.
  intros Hkey.
  destruct (config_of_key env Hkey) as (key & base_url & m & Hc & _ & _ & _ & Hne).
  unfold _fetch_models. rewrite Hc. cbv beta iota zeta.
  assert (falsy_opt (Some key) = false) as -> by (cbn; by rewrite Hne).
  rewrite !bind_run.
  assert (net (snd (ensure_client w)) = net w
          /\ logs (snd (ensure_client w)) = logs w) as [Hnet Hlogs].
  { unfold ensure_client. by destruct (http_client w). }
  unfold send_request. cbn [fst snd]. rewrite Hnet.
  destruct (remote env (net w) (models_request env)) as [|resp];
    [by repeat split|].
  destruct (is_success resp); [|by repeat split].
  destruct (resp_json resp) as [[| | | | |data]|]; try (by repeat split).
  destruct (dict_get (py "data") data) as [[]|]; by repeat split.
Qed.

(** X20. What a listing shows. When the provider gives a non-empty list
    of listable items, the entries (identifier, new line, tags) are put
    in ascending order of their code points and nothing is lost or
    added. In a private chat they are sent as one message, separated by
    empty lines; in a group they go as the nodes of one forward message
    through the API of the bot, followed by a short confirmation, or by
    nothing when that call raises. *)
Theorem model_list_sent (env : environment) (b : bot) (ev : event)
    (w : world) (models : list json) :
  fst (_fetch_models env w) = Some models ->
  models <> [] ->
  forallb listable models = true ->
  let w1 := snd (_fetch_models env w) in
  let listed := model_entry <$> omap listed_id models in
  let entries := sort_entries listed in
  Sorted str_le entries /\ entries ≡ₚ listed /\
  match group_of ev with
  | None =>
      _send_model_list env b ev w
      = ([], Ended, snd (finish (join [10; 10] entries) w1))
  | Some g =>
      let call := {| api_name := py "send_group_forward_msg";
                     api_group_id := g;
                     api_messages := forward_node b <$> entries |} in
      _send_model_list env b ev w
      = if call_api b call
        then ([call], Ended, snd (finish (py "模型列表已发送。") w1))
        else ([call], Escaped, w1)
  end.
Proof.
  intros Hfetch Hne Hlist w1 listed entries.
  split; [apply Sorted_merge_sort, _|].
  split; [apply merge_sort_Permutation|].
  unfold _send_model_list. rewrite bind_run, Hfetch. fold w1.
  destruct models as [|item rest]; [done|].
  rewrite model_entries_value, Hlist. cbv zeta.
  fold listed. fold entries. fold (group_of ev).
  destruct (group_of ev) as [g|].
  - destruct (call_api b _); [|reflexivity].
    rewrite bind_run. reflexivity.
  - rewrite bind_run. reflexivity.
Qed.

Lemma model_list_sent_witness :
  let w1 := snd (_fetch_models SampleDirectory.env_models Sample.empty_world) in
  let listed := model_entry <$> omap listed_id
                  [SampleDirectory.model_item (py "o1-preview");
                   JObj [(py "object", JStr (py "model"))];
                   SampleDirectory.model_item (py "gpt-4o-mini")] in
  let entries := sort_entries listed in
  Sorted str_le entries /\ entries ≡ₚ listed /\
  match group_of SampleDirectory.bob with
  | None =>
      _send_model_list SampleDirectory.env_models SampleDirectory.a2bot
        SampleDirectory.bob Sample.empty_world
      = ([], Ended, snd (finish (join [10; 10] entries) w1))
  | Some g =>
      let call := {| api_name := py "send_group_forward_msg";
                     api_group_id := g;
                     api_messages :=
                       forward_node SampleDirectory.a2bot <$> entries |} in
      _send_model_list SampleDirectory.env_models SampleDirectory.a2bot
        SampleDirectory.bob Sample.empty_world
      = if call_api SampleDirectory.a2bot call
        then ([call], Ended, snd (finish (py "模型列表已发送。") w1))
        else ([call], Escaped, w1)
  end.
Proof.
  apply (model_list_sent SampleDirectory.env_models SampleDirectory.a2bot
           SampleDirectory.bob Sample.empty_world
           [SampleDirectory.model_item (py "o1-preview");
            JObj [(py "object", JStr (py "model"))];
            SampleDirectory.model_item (py "gpt-4o-mini")]).
  - vm_compute. reflexivity.
  - discriminate.
  - vm_compute. reflexivity.
Defined.

(** X21. A listing without a usable key. When the three settings are
    there and the key is [None] or empty, a listing sends no request,
    calls no API and writes nothing: it only answers that no list was
    obtained; the same answer is given whenever the provider's list is
    empty. When a setting is missing, the read of the configuration
    raises inside [_fetch_models], which [_send_model_list] catches: the
    exception is logged and the chat gets the notice that the list could
    not be fetched, again without any request. *)
Theorem model_list_without_key (env : environment) (b : bot) (ev : event)
    (w : world) :
  (forall api_key base_url model,
     _get_openai_config env = Some (api_key, base_url, model) ->
     falsy_opt api_key = true ->
     _send_model_list env b ev w
     = ([], Ended, snd (finish (py "未获取到模型列表。") w))) /\
  (_get_openai_config env = None ->
   _send_model_list env b ev w
   = ([], Ended,
      snd (finish (py "获取模型列表失败，请稍后再试。")
             (snd (emit Exception (py "Fetch models failed: %s") [ArgExc] w))))) /\
  (fst (_fetch_models env w) = Some [] ->
   fst (_send_model_list env b ev w) = ([], Ended) /\
   sent (snd (_send_model_list env b ev w))
   = sent w ++ [py "未获取到模型列表。"]).
Proof.
  split; [|split].
  - intros api_key base_url model Hc Hkey. unfold _send_model_list.
    rewrite bind_run, (fetch_models_no_key env w api_key base_url model)
      by done.
    cbn [fst snd]. rewrite bind_run. reflexivity.
  - intros Hc. unfold _send_model_list.
    rewrite bind_run, fetch_models_unset by done. cbn [fst snd].
    rewrite !bind_run. reflexivity.
  - intros Hfetch. unfold _send_model_list. rewrite bind_run, Hfetch.
    rewrite bind_run. unfold finish, ret. cbn [fst snd sent].
    split; [reflexivity|]. by destruct (keeps_fetch_models env w) as [_ ->].
Qed.

Lemma model_list_without_key_witness :
  _send_model_list Sample.env_no_key SampleDirectory.a2bot Sample.alice
    Sample.empty_world
  = ([], Ended, snd (finish (py "未获取到模型列表。") Sample.empty_world)) /\
  _send_model_list Sample.env_unset_key SampleDirectory.a2bot Sample.alice
    Sample.empty_world
  = ([], Ended,
     snd (finish (py "获取模型列表失败，请稍后再试。")
            (snd (emit Exception (py "Fetch models failed: %s") [ArgExc]
                    Sample.empty_world)))).
Proof.
  split.
  - apply (proj1 (model_list_without_key Sample.env_no_key
                    SampleDirectory.a2bot Sample.alice Sample.empty_world)
             None (py "https://api.example.com/v1/") (py "gpt-4o-mini")).
    + reflexivity.
    + reflexivity.
  - apply (proj1 (proj2 (model_list_without_key Sample.env_unset_key
                           SampleDirectory.a2bot Sample.alice
                           Sample.empty_world))).
    reflexivity.
Defined.

(** X22. A listing that cannot be fetched does not fail the command:
    with a key, when the one request ends in a transport error, a status
    outside 2xx or a body that is not a JSON object, the exception is
    logged once and the chat gets the notice that the list could not be
    fetched; no API call is made. *)
Theorem model_list_fetch_failure (env : environment) (b : bot) (ev : event)
    (w : world) :
  falsy_opt (openai_api_key env) = false ->
  failed_listing (remote env (net w) (models_request env)) = true ->
  let w' := snd (_send_model_list env b ev w) in
  fst (_send_model_list env b ev w) = ([], Ended) /\
  sent w' = sent w ++ [py "获取模型列表失败，请稍后再试。"] /\
  logs w' = logs w ++ [{| log_level_of := Exception;
                          log_format := py "Fetch models failed: %s";
                          log_args := [ArgExc] |}] /\
  net w' = net w ++ [models_request env] /\
  files w' = files w.
Proof.
  intros Hkey Hfail.
  destruct (fetch_models_run env w Hkey) as (Hnet & Hlogs & Hval).
  assert (fst (_fetch_models env w) = None) as Hnone.
  { rewrite Hval.
    destruct (remote env (net w) (models_request env)) as [|resp]; [done|].
    cbn [failed_listing] in Hfail.
    destruct (is_success resp); [|done]. cbn [negb orb] in Hfail.
    by destruct (resp_json resp) as [[]|]. }
  destruct (keeps_fetch_models env w) as [Hfiles Hsent].
  cbv zeta. unfold _send_model_list. rewrite bind_run, Hnone.
  rewrite !bind_run. unfold emit, finish, ret.
  cbn [fst snd sent logs net files].
  by rewrite Hsent, Hlogs, Hnet, Hfiles.
Qed.

Lemma model_list_fetch_failure_witness :
  let w' := snd (_send_model_list Sample.env_500 SampleDirectory.a2bot
                   Sample.alice Sample.empty_world) in
  fst (_send_model_list Sample.env_500 SampleDirectory.a2bot Sample.alice
         Sample.empty_world) = ([], Ended) /\
  sent w' = sent Sample.empty_world ++ [py "获取模型列表失败，请稍后再试。"] /\
  logs w' = logs Sample.empty_world
            ++ [{| log_level_of := Exception;
                   log_format := py "Fetch models failed: %s";
                   log_args := [ArgExc] |}] /\
  net w' = net Sample.empty_world ++ [models_request Sample.env_500] /\
  files w' = files Sample.empty_world.
Proof.
  apply (model_list_fetch_failure Sample.env_500 SampleDirectory.a2bot
           Sample.alice Sample.empty_world).
  - reflexivity.
  - reflexivity.
Defined.

(** X23. Whatever happens, a listing writes no file, sends exactly one
    request when there is an API key and none otherwise, calls the API
    of the bot at most once and puts at most one message in the chat;
    when an exception escapes it, the chat has got nothing. *)
Theorem model_list_effects (env : environment) (b : bot) (ev : event)
    (w : world) :
  let res := _send_model_list env b ev w in
  let w' := snd res in
  files w' = files w /\
  net w' = (if falsy_opt (openai_api_key env) then net w
            else net w ++ [models_request env]) /\
  (length (fst (fst res)) <= 1)%nat /\
  exists t, sent w' = sent w ++ t /\ (length t <= 1)%nat /\
            (snd (fst res) = Escaped -> t = []).
Proof.
  cbv zeta.
  destruct (keeps_fetch_models env w) as [Hfiles Hsent].
  assert (net (snd (_fetch_models env w))
          = if falsy_opt (openai_api_key env) then net w
            else net w ++ [models_request env]) as Hnet.
  { destruct (falsy_opt (openai_api_key env)) eqn:Hkey.
    - by apply fetch_models_net_no_key.
    - by destruct (fetch_models_run env w Hkey) as [-> _]. }
  unfold _send_model_list. rewrite bind_run.
  set (w1 := snd (_fetch_models env w)) in *.
  destruct (fst (_fetch_models env w)) as [[|item rest]|].
  - rewrite bind_run. unfold finish, ret. cbn [fst snd files net sent length].
    repeat split; [done|done|lia|]. eexists. rewrite Hsent.
    split; [reflexivity|]. split; [cbn [length]; lia|discriminate].
  - destruct (model_entries (item :: rest)) as [entries|].
    + cbv zeta. fold (group_of ev). destruct (group_of ev) as [g|].
      * destruct (call_api b _).
        -- rewrite bind_run. unfold finish, ret.
           cbn [fst snd files net sent length].
           repeat split; [done|done|lia|]. eexists. rewrite Hsent.
           split; [reflexivity|]. split; [cbn [length]; lia|discriminate].
        -- unfold ret. cbn [fst snd length].
           repeat split; [done|done|lia|]. exists []. rewrite app_nil_r.
           split; [done|]. split; [cbn [length]; lia|done].
      * rewrite bind_run. unfold finish, ret.
        cbn [fst snd files net sent length].
        repeat split; [done|done|lia|]. eexists. rewrite Hsent.
        split; [reflexivity|]. split; [cbn [length]; lia|discriminate].
    + unfold ret. cbn [fst snd length].
      repeat split; [done|done|lia|]. exists []. rewrite app_nil_r.
      split; [done|]. split; [cbn [length]; lia|done].
  - rewrite !bind_run. unfold emit, finish, ret.
    cbn [fst snd files net sent length].
    repeat split; [done|done|lia|]. eexists. rewrite Hsent.
    split; [reflexivity|]. split; [cbn [length]; lia|discriminate].
Qed.

(** X24. Choosing a model. When the command carries a name (its plain
    text, stripped, is not empty), the handler sets it for the user
    without any request and without touching any file but the user's
    settings. When the settings directory cannot be made the exception
    leaves the handler: nothing is sent and the user keeps the model
    they had. Otherwise the name is confirmed in the chat, whatever
    became of the write: the user keeps the model they had when the file
    could not be opened, reads the new name when the document was
    written in full, and falls back to the configured default when the
    write broke off part-way. *)
Theorem model_chosen (env : environment)
    (extract_plain_text : list segment -> str) (b : bot) (ev : event)
    (args : list segment) (w : world) :
  let text := strip (extract_plain_text args) in
  let res := model_handler env extract_plain_text b ev args w in
  let path := _get_user_settings_path env ev in
  let settings := dict_set (py "model") (JStr text)
                    (fst (_load_user_settings env ev w)) in
  nonempty text = true ->
  fst res = ([], if makedirs_ok env (USER_SETTINGS_DIR env)
                 then Ended else Escaped) /\
  sent (snd res)
  = sent w ++ (if makedirs_ok env (USER_SETTINGS_DIR env)
               then [py "已切换到模型: " ++ text] else []) /\
  net (snd res) = net w /\
  fst (_get_user_model env ev (snd res))
  = (if makedirs_ok env (USER_SETTINGS_DIR env) && writable env path
     then (if json_encodable (JObj settings) && write_through env path
           then Some text else openai_model env)
     else fst (_get_user_model env ev w)) /\
  forall p, p <> path -> files (snd res) !! p = files w !! p.
Proof.
  intros text res path settings Hne. unfold res, model_handler. fold text.
  rewrite Hne. cbn [negb]. rewrite !bind_run.
  set (w1 := snd (_set_user_model env ev text w)).
  destruct (set_user_model_run env ev text w) as (Hsent & Hnet & He & Hfiles).
  fold w1 path settings in Hsent, Hnet, He, Hfiles.
  assert (fst (_get_user_model env ev w1)
          = (if makedirs_ok env (USER_SETTINGS_DIR env) && writable env path
             then (if json_encodable (JObj settings) && write_through env path
                   then Some text else openai_model env)
             else fst (_get_user_model env ev w))) as Hread.
  { rewrite !get_user_model_value, !load_user_settings_value, Hfiles.
    fold path.
    destruct (makedirs_ok env _ && writable env path); [|done].
    rewrite lookup_insert_eq. destruct (json_encodable _ && _); [|done].
    unfold settings. by rewrite dict_get_set_eq, Hne. }
  assert (forall p, p <> path -> files w1 !! p = files w !! p) as Hframe.
  { intros p Hp. rewrite Hfiles.
    destruct (makedirs_ok env _ && writable env path); [|done].
    by rewrite lookup_insert_ne. }
  rewrite He.
  destruct (makedirs_ok env (USER_SETTINGS_DIR env)).
  - rewrite bind_run. unfold finish, ret. cbn [fst snd sent net files].
    rewrite Hsent, Hnet. repeat split; [|exact Hframe].
    rewrite <- Hread.
    by rewrite !get_user_model_value, !load_user_settings_value.
  - unfold ret. cbn [fst snd].
    rewrite Hsent, Hnet, app_nil_r. by repeat split.
Qed.

Lemma model_chosen_witness :
  let text := strip (SampleDirectory.plain_text
                       [Sample.text_segment (py " o1-preview ")]) in
  let res := model_handler Sample.env_ok SampleDirectory.plain_text
               SampleDirectory.a2bot Sample.alice
               [Sample.text_segment (py " o1-preview ")]
               Sample.settings_world in
  let path := _get_user_settings_path Sample.env_ok Sample.alice in
  let settings := dict_set (py "model") (JStr text)
                    (fst (_load_user_settings Sample.env_ok Sample.alice
                            Sample.settings_world)) in
  fst res = ([], if makedirs_ok Sample.env_ok (USER_SETTINGS_DIR Sample.env_ok)
                 then Ended else Escaped) /\
  sent (snd res)
  = sent Sample.settings_world
    ++ (if makedirs_ok Sample.env_ok (USER_SETTINGS_DIR Sample.env_ok)
        then [py "已切换到模型: " ++ text] else []) /\
  net (snd res) = net Sample.settings_world /\
  fst (_get_user_model Sample.env_ok Sample.alice (snd res))
  = (if makedirs_ok Sample.env_ok (USER_SETTINGS_DIR Sample.env_ok)
        && writable Sample.env_ok path
     then (if json_encodable (JObj settings)
              && write_through Sample.env_ok path
           then Some text else openai_model Sample.env_ok)
     else fst (_get_user_model Sample.env_ok Sample.alice
                 Sample.settings_world)) /\
  forall p, p <> path ->
            files (snd res) !! p = files Sample.settings_world !! p.
Proof.
  apply (model_chosen Sample.env_ok SampleDirectory.plain_text
           SampleDirectory.a2bot Sample.alice
           [Sample.text_segment (py " o1-preview ")] Sample.settings_world).
  vm_compute. reflexivity.
Defined.

(** ** Sessions and their turns *)

Lemma path_join_inj_prefix (d p a b : str) :
  p <> [] -> path_join d (p ++ a) = path_join d (p ++ b) -> a = b.
Proof.
  intros Hp. destruct p as [|c p]; [done|].
  unfold path_join. change (py "/") with [47].
  cbn [app startswith]. destruct (47 =? c); cbn [andb].
  - intros H. injection H as H. by apply app_inv_head in H.
  - destruct (negb (nonempty d) || endswith [47] d); intros H.
    + apply app_inv_head in H. injection H as H. by apply app_inv_head in H.
    + apply app_inv_head in H. injection H as H.
      by apply app_inv_head in H.
Qed.

Lemma context_path_inj env (ev ev' : event) :
  group_id ev = group_id ev' ->
  startswith (py "/") (user_id ev) = false ->
  startswith (py "/") (user_id ev') = false ->
  _get_context_path env ev = _get_context_path env ev' ->
  user_id ev = user_id ev'.
Proof.
  intros Hg H H'. unfold _get_context_path, _get_session_id. rewrite <- Hg.
  destruct (group_id ev) as [g|]; [destruct (g =? 0)%Z|].
  - intros Heq. apply path_join_inj in Heq;
      [by apply app_inv_tail in Heq| |]; by apply startswith_slash_app.
  - rewrite <- !app_assoc, !(app_assoc (str_of_int g)).
    intros Heq. apply path_join_inj_prefix in Heq.
    + by apply app_inv_tail in Heq.
    + by destruct (str_of_int g).
  - intros Heq. apply path_join_inj in Heq;
      [by apply app_inv_tail in Heq| |]; by apply startswith_slash_app.
Qed.

(** X25. Histories are kept apart. Two users of the same group, or two
    users in private chat, whose identifiers differ (and do not start
    with "/") have different history files, and a handler serving one of
    them leaves the history of the other as it was. *)
Theorem histories_are_separate (env : environment) (ev ev' : event)
    (args : list segment) (w : world) :
  group_id ev = group_id ev' ->
  user_id ev <> user_id ev' ->
  startswith (py "/") (user_id ev) = false ->
  startswith (py "/") (user_id ev') = false ->
  _get_context_path env ev <> _get_context_path env ev' /\
  fst (_load_context env ev' (snd (chat_handler env ev args w)))
  = fst (_load_context env ev' w) /\
  fst (_load_context env ev' (snd (tome_handler env ev w)))
  = fst (_load_context env ev' w).
Proof.
  intros Hg Hne H H'.
  assert (_get_context_path env ev <> _get_context_path env ev') as Hpath
    by (intros Heq; by apply Hne, (context_path_inj env)).
  split; [done|]. rewrite !load_context_value. split.
  - destruct (handler_files env ev args (chat_handler env ev args) w)
      as [->|(um & reply & doc & _ & _ & _ & ->)]; [by left|done|].
    by rewrite lookup_insert_ne.
  - destruct (handler_files env ev (message ev) (tome_handler env ev) w)
      as [->|(um & reply & doc & _ & _ & _ & ->)]; [by right|done|].
    by rewrite lookup_insert_ne.
Qed.

Lemma histories_are_separate_witness :
  _get_context_path Sample.env_ok Sample.alice
  <> _get_context_path Sample.env_ok
       {| user_id := py "10002"; group_id := Some 77%Z; message := [] |} /\
  fst (_load_context Sample.env_ok
         {| user_id := py "10002"; group_id := Some 77%Z; message := [] |}
         (snd (chat_handler Sample.env_ok Sample.alice Sample.hello
                 Sample.empty_world)))
  = fst (_load_context Sample.env_ok
           {| user_id := py "10002"; group_id := Some 77%Z; message := [] |}
           Sample.empty_world) /\
  fst (_load_context Sample.env_ok
         {| user_id := py "10002"; group_id := Some 77%Z; message := [] |}
         (snd (tome_handler Sample.env_ok Sample.alice Sample.empty_world)))
  = fst (_load_context Sample.env_ok
           {| user_id := py "10002"; group_id := Some 77%Z; message := [] |}
           Sample.empty_world).
Proof.
  apply (histories_are_separate Sample.env_ok Sample.alice
           {| user_id := py "10002"; group_id := Some 77%Z; message := [] |}
           Sample.hello Sample.empty_world).
  - reflexivity.
  - vm_compute. intros H. discriminate H.
  - reflexivity.
  - reflexivity.
Defined.







(** X28. With the three settings in place and a key that is [None] or
    empty, the completion call returns the fixed notice and leaves the
    world as it was: in particular the list of requests sent has not
    grown. *)
Theorem missing_key_no_request (env : environment) (messages : list json)
    (model : str) (w : world) (api_key : option str) (base_url m : str) :
  _get_openai_config env = Some (api_key, base_url, m) ->
  falsy_opt api_key = true ->
  fst (_call_openai env messages model w)
  = Some (py "缺少 OPENAI_API_KEY 配置。") /\
  snd (_call_openai env messages model w) = w /\
  net (snd (_call_openai env messages model w)) = net w.
Proof.
  intros Hc Hkey. unfold _call_openai. by rewrite Hc, Hkey.
Qed.

Lemma missing_key_no_request_witness :
  fst (_call_openai Sample.env_no_key [user_turn (JStr (py "hello"))]
         (py "gpt-4o-mini") Sample.empty_world)
  = Some (py "缺少 OPENAI_API_KEY 配置。") /\
  snd (_call_openai Sample.env_no_key [user_turn (JStr (py "hello"))]
         (py "gpt-4o-mini") Sample.empty_world) = Sample.empty_world /\
  net (snd (_call_openai Sample.env_no_key [user_turn (JStr (py "hello"))]
              (py "gpt-4o-mini") Sample.empty_world))
  = net Sample.empty_world.
Proof.
  apply (missing_key_no_request Sample.env_no_key
           [user_turn (JStr (py "hello"))] (py "gpt-4o-mini")
           Sample.empty_world None (py "https://api.example.com/v1/")
           (py "gpt-4o-mini")).
  - reflexivity.
  - reflexivity.
Defined.

(** X29. When a setting of the provider is missing, a handler that has a
    user turn is left by the exception of the configuration read: it
    sends nothing to the chat, not even a notice, writes no file and
    asks the provider for nothing. *)
Theorem missing_setting_silences_handler (env : environment) (ev : event)
    (args : list segment) (h : M ending) (w : world) (um : json) :
  h = chat_handler env ev args \/ (args = message ev /\ h = tome_handler env ev) ->
  fst (_build_user_message env args w) = Some um ->
  _get_openai_config env = None ->
  fst (h w) = Escaped /\
  sent (snd (h w)) = sent w /\
  files (snd (h w)) = files w /\
  net (snd (h w)) = net (snd (_build_user_message env args w)).
Proof.
  intros Hh Hum Hc.
  destruct (handler_run env ev args h w um Hh Hum)
    as (w3 & Hf & Hs & Hn & Hrun).
  cbv zeta in Hrun. rewrite Hrun. clear Hrun.
  destruct (fst (_get_user_model env ev w)) as [model|]; [|done].
  by rewrite call_openai_unset.
Qed.

Lemma missing_setting_silences_handler_witness :
  fst (chat_handler Sample.env_unset_key Sample.alice Sample.hello
         Sample.empty_world) = Escaped /\
  sent (snd (chat_handler Sample.env_unset_key Sample.alice Sample.hello
               Sample.empty_world)) = sent Sample.empty_world /\
  files (snd (chat_handler Sample.env_unset_key Sample.alice Sample.hello
                Sample.empty_world)) = files Sample.empty_world /\
  net (snd (chat_handler Sample.env_unset_key Sample.alice Sample.hello
              Sample.empty_world))
  = net (snd (_build_user_message Sample.env_unset_key Sample.hello
                Sample.empty_world)).
Proof.
  apply (missing_setting_silences_handler Sample.env_unset_key Sample.alice
           Sample.hello
           (chat_handler Sample.env_unset_key Sample.alice Sample.hello)
           Sample.empty_world (user_turn (JStr (py "hello")))).
  - left. reflexivity.
  - vm_compute. reflexivity.
  - reflexivity.
Defined.

Lemma drop_last_twice {A} (k : nat) (l x : list A) :
  drop (length (drop (length l - k) l ++ x) - k) (drop (length l - k) l ++ x)
  = drop (length (l ++ x) - k) (l ++ x).
Proof.
  rewrite !length_app, length_drop.
  destruct (decide (length l <= k)%nat) as [Hle|Hgt].
  - replace (length l - k)%nat with 0%nat by lia. cbn [drop].
    by rewrite Nat.sub_0_r.
  - replace (length l - (length l - k) + length x - k)%nat
      with (length x) by lia.
    replace (length l + length x - k)%nat
      with ((length l - k) + length x)%nat by lia.
    rewrite <- drop_drop. f_equal. rewrite drop_app_le; [done|lia].
Qed.

(** X27. The window slides: cutting the history after each exchange
    gives, after two exchanges, the same list as appending both
    exchanges to the first history and cutting once: its last
    [MAX_CONTEXT_MESSAGES] entries. *)
Theorem window_slides (history : list json) (um1 um2 : json)
    (reply1 reply2 : str) :
  let appended :=
    history ++ [um1; assistant_turn reply1; um2; assistant_turn reply2] in
  append_and_trim (append_and_trim history um1 reply1) um2 reply2
  = drop (length appended - MAX_CONTEXT_MESSAGES) appended.
Proof.
  intros appended. rewrite (append_and_trim_drop (append_and_trim _ _ _)).
  rewrite append_and_trim_drop.
  rewrite drop_last_twice. unfold appended.
  by rewrite <- app_assoc.
Qed.
